(** * terraform-provider-jks: the keystore model and the keystore resource

    A shallow embedding of [internal/provider/keystore_model.go] and of the
    keystore resource that drives it.  The keystore model is an orchestration
    of temp-file operations and [keytool] subprocesses, so the operations are
    embedded as programs over the calls they make to the Go runtime
    ([os.ReadFile], [os.WriteFile], [os.Remove], [exec.Cmd.CombinedOutput],
    [uuid.New], [tflog.Trace]); a program is run against an arbitrary
    operating system, and the run records every call with its answer. *)

From stdpp Require Import gmap strings list pretty.
From Stdlib Require Import Strings.Ascii Strings.String Strings.Byte.

Local Open Scope string_scope.
Local Open Scope list_scope.
Local Open Scope Z_scope.

(** ** Go values *)

(** A Go [[]byte]. *)
Abbreviation bytes := (list byte).

(** The line feed of the Go format strings. *)
Definition LF : string := String (ascii_of_byte x0a) EmptyString.

(** Go's [error] values that reach this package.  [nil] is [None] of
    [option error]. *)
Inductive error : Type :=
| CorruptInputError (offset : Z)   (* encoding/base64 *)
| SysError (msg : string)          (* os and os/exec: PathError, exec.Error, ExitError *)
| Errorf (msg : string).           (* the result of fmt.Errorf *)

(** [err.Error()], which is what the verb %s prints for an error. *)
Definition Error (e : error) : string :=
  match e with
  | CorruptInputError offset => "illegal base64 data at input byte " +:+ pretty offset
  | SysError msg => msg
  | Errorf msg => msg
  end.

#[global] Instance error_eq_dec : EqDecision error.
Proof. solve_decision. Defined.

(** [string(b)] and [[]byte(s)]. *)
Definition string_of_bytes (b : bytes) : string := string_of_list_byte b.
Definition bytes_of_string (s : string) : bytes := list_byte_of_string s.

(** ** encoding/base64, the standard encoding

    [base64.StdEncoding]: the RFC 4648 alphabet, padding with [=], not
    strict.  [EncodeToString] follows [Encoding.Encode]; [DecodeString]
    follows [Encoding.Decode] and [decodeQuantum], one input byte at a time
    (the word-at-a-time fast paths of [Decode] compute the same result). *)
Module base64.

Definition encodeStd : string :=
  "ABCDEFGHIJKLMNOPQRSTUVWXYZabcdefghijklmnopqrstuvwxyz0123456789+/".

Definition padChar : ascii := "="%char.

Definition uint (b : byte) : N := Byte.to_N b.

(** [byte(v)]: the low eight bits. *)
Definition to_byte (v : N) : byte :=
  default x00 (Byte.of_N (N.land v 255)).

(** [enc.encode[v]]. *)
Definition encode (v : N) : ascii :=
  default "000"%char (String.get (N.to_nat v) encodeStd).

Fixpoint index_from (c : ascii) (s : string) (i : N) : option N :=
  match s with
  | EmptyString => None
  | String d s' => if Ascii.eqb c d then Some i else index_from c s' (N.succ i)
  end.

(** [enc.decodeMap[c]]: the position of [c] in the alphabet, 0xff for a
    byte outside of it. *)
Definition decodeMap (c : ascii) : N :=
  default 255%N (index_from c encodeStd 0%N).

(** [val>>shift&0x3F]. *)
Definition sextet_index (val : N) (shift : N) : N :=
  N.land (N.shiftr val shift) 63.

(** [enc.encode[val>>shift&0x3F]]. *)
Definition sextet (val : N) (shift : N) : ascii :=
  encode (sextet_index val shift).

Fixpoint Encode (src : bytes) : string :=
  match src with
  | [] => EmptyString
  | b0 :: b1 :: b2 :: rest =>
      let val := N.lor (N.lor (N.shiftl (uint b0) 16) (N.shiftl (uint b1) 8)) (uint b2) in
      String (sextet val 18) (String (sextet val 12)
        (String (sextet val 6) (String (sextet val 0) (Encode rest))))
  | [b0; b1] =>
      let val := N.lor (N.shiftl (uint b0) 16) (N.shiftl (uint b1) 8) in
      String (sextet val 18) (String (sextet val 12)
        (String (sextet val 6) (String padChar EmptyString)))
  | [b0] =>
      let val := N.shiftl (uint b0) 16 in
      String (sextet val 18) (String (sextet val 12)
        (String padChar (String padChar EmptyString)))
  end.

Definition EncodeToString (src : bytes) : string := Encode src.

Definition is_newline (c : ascii) : bool :=
  Ascii.eqb c (ascii_of_byte x0a) || Ascii.eqb c (ascii_of_byte x0d).

(** The loop [for si < len(src) && (src[si] == '\n' || src[si] == '\r') { si++ }]. *)
Fixpoint skip_newlines (rest : string) (si : Z) : string * Z :=
  match rest with
  | String c rest' => if is_newline c then skip_newlines rest' (si + 1) else (rest, si)
  | EmptyString => (rest, si)
  end.

(** The three bytes of a quantum, of which the first [dlen - 1] are
    written: [val := dbuf[0]<<18 | dbuf[1]<<12 | dbuf[2]<<6 | dbuf[3]]. *)
Definition quantum_bytes (dbuf : list N) (dlen : nat) : bytes :=
  let d i := nth i dbuf 0%N in
  let val := N.lor (N.lor (N.lor (N.shiftl (d 0%nat) 18) (N.shiftl (d 1%nat) 12))
                      (N.shiftl (d 2%nat) 6)) (d 3%nat) in
  take (dlen - 1)%nat [to_byte (N.shiftr val 16); to_byte (N.shiftr val 8); to_byte val].

(** After the padding of the last quantum: skip newlines, then anything
    left is trailing garbage. *)
Definition after_padding (dbuf : list N) (j : nat) (rest : string) (si : Z)
  : bytes * option error :=
  let '(rest, si) := skip_newlines rest si in
  (quantum_bytes dbuf j,
   match rest with
   | EmptyString => None
   | String _ _ => Some (CorruptInputError si)
   end).

(** [Decode], from the input byte at index [si] on, [rest] being
    [src[si:]], inside a quantum of which [j] characters are in [dbuf]. *)
Fixpoint decode_from (len : Z) (rest : string) (si : Z) (j : nat) (dbuf : list N)
  : bytes * option error :=
  match rest with
  | EmptyString =>
      match j with
      | O => ([], None)
      | _ => ([], Some (CorruptInputError (si - Z.of_nat j)))
      end
  | String c rest' =>
      let si := si + 1 in
      let out := decodeMap c in
      if negb (N.eqb out 255) then
        match j with
        | 3%nat =>
            let '(tl, err) := decode_from len rest' si 0 [] in
            (quantum_bytes (dbuf ++ [out]) 4 ++ tl, err)
        | _ => decode_from len rest' si (S j) (dbuf ++ [out])
        end
      else if is_newline c then decode_from len rest' si j dbuf
      else if negb (Ascii.eqb c padChar) then ([], Some (CorruptInputError (si - 1)))
      else
        match j with
        | 0%nat | 1%nat => ([], Some (CorruptInputError (si - 1)))
        | 2%nat =>
            let '(rest2, si2) := skip_newlines rest' si in
            match rest2 with
            | EmptyString => ([], Some (CorruptInputError len))
            | String c2 rest3 =>
                if negb (Ascii.eqb c2 padChar)
                then ([], Some (CorruptInputError (si2 - 1)))
                else after_padding dbuf j rest3 (si2 + 1)
            end
        | _ => after_padding dbuf j rest' si
        end
  end.

Definition DecodeString (s : string) : bytes * option error :=
  decode_from (Z.of_nat (String.length s)) s 0 0 [].

End base64.

(** ** Programs over the Go runtime *)

(** The calls the package makes into [os], [os/exec], [uuid] and [tflog]. *)
Inductive call : Type :=
| CombinedOutput (name : string) (arg : list string)  (* exec.Command(name, arg...).CombinedOutput() *)
| ReadFile (name : string)                            (* os.ReadFile *)
| WriteFile (name : string) (data : bytes) (perm : N) (* os.WriteFile *)
| Remove (name : string)                              (* os.Remove *)
| UuidNewString                                       (* uuid.New().String() *)
| TflogTrace (msg : string).                          (* tflog.Trace *)

(** What each call returns. *)
Definition answer (c : call) : Type :=
  match c with
  | CombinedOutput _ _ => (bytes * option error)%type
  | ReadFile _ => (bytes * option error)%type
  | WriteFile _ _ _ => option error
  | Remove _ => option error
  | UuidNewString => string
  | TflogTrace _ => unit
  end.

(** A program either returns or makes a call and goes on with its answer. *)
Inductive prog (R : Type) : Type :=
| Return (r : R)
| Call (c : call) (k : answer c -> prog R).
Arguments Return {R} r.
Arguments Call {R} c k.

Fixpoint bind {A B : Type} (p : prog A) (f : A -> prog B) : prog B :=
  match p with
  | Return a => f a
  | Call c k => Call c (fun x => bind (k x) f)
  end.

#[global] Instance prog_ret : MRet prog := @Return.
#[global] Instance prog_bind : MBind prog := fun A B f p => bind p f.

Definition perform (c : call) : prog (answer c) := Call c Return.

(** One call of a run, with the answer the system gave. *)
Record event : Type := Event { ev_call : call; ev_answer : answer ev_call }.

(** An operating system over worlds [W]: how each call is answered and what
    it does to the world.  Nothing is assumed of it. *)
Definition system (W : Type) : Type := forall c : call, W -> answer c * W.

Fixpoint run {W R : Type} (sys : system W) (p : prog R) (w : W) : R * W * list event :=
  match p with
  | Return r => (r, w, [])
  | Call c k =>
      let '(a, w1) := sys c w in
      let '(r, w2, t) := run sys (k a) w1 in
      (r, w2, Event c a :: t)
  end.

Definition result {W R : Type} (x : R * W * list event) : R := x.1.1.
Definition world_after {W R : Type} (x : R * W * list event) : W := x.1.2.
Definition trace {W R : Type} (x : R * W * list event) : list event := x.2.

Definition calls (t : list event) : list call := ev_call <$> t.

Definition is_exec (c : call) : bool :=
  match c with CombinedOutput _ _ => true | _ => false end.

Definition is_uuid (c : call) : bool :=
  match c with UuidNewString => true | _ => false end.

(** ** internal/provider/keystore_model.go *)
Module keystore_model.

Record KeystoreModel : Type := mkKeystoreModel {
  Password : string;
  Base64Text : string
}.

Definition FILENAME : string := "79e00021-58b2-4652-b498-59134c0ed6e7.pkcs12".
Definition FILENAME2 : string := "79e00021-58b2-4652-b498-59134c0ed6e72.pkcs12".

(** The permission bits [0644] (octal) of the [os.WriteFile] call. *)
Definition perm_0644 : N := 6 * 64 + 4 * 8 + 4.

(** The command line of [CreateKeystoreBase64], after the program name. *)
Definition genkeypair_args (m : KeystoreModel) (fileName : string) : list string :=
  [ "-v";
    "-genkeypair";
    "-alias"; "keystore";
    "-keypass"; Password m;
    "-keystore"; fileName;
    "-storepass"; Password m;
    "-validity"; "10000";
    "-keyalg"; "RSA";
    "-keysize"; "2048";
    "-dname"; "CN=Unknown, OU=Unknown, O=Unknown, L=Unknown, S=Unknown, C=Unknown" ].

Definition CreateKeystoreBase64 (m : KeystoreModel) : prog (string * option error) :=
  let fileName := FILENAME in
  '(output, err) ← perform (CombinedOutput "keytool" (genkeypair_args m fileName));
  if err is Some err then
    Return (EmptyString, Some (Errorf
      ("error after executing command to produce keystore file. Is the keytool installed on the machine?"
       +:+ LF +:+ "Error:" +:+ Error err +:+ LF +:+ "Output: " +:+ string_of_bytes output)))
  else
  '(bytes, err) ← perform (ReadFile fileName);
  if err is Some err then
    Return (EmptyString, Some (Errorf
      ("error reading keystore file after producing keystore file"
       +:+ LF +:+ "Error: " +:+ Error err)))
  else
  err ← perform (Remove fileName);
  if err is Some err then
    Return (EmptyString, Some (Errorf
      ("error removing keystore file after reading keystore file"
       +:+ LF +:+ "Error: " +:+ Error err)))
  else
  Return (base64.EncodeToString bytes, None).

(** The command line of [UpdateKeystoreBase64], after the program name. *)
Definition importkeystore_args (oldModel : KeystoreModel) (newPassword : string)
    (fileName fileName2 : string) : list string :=
  [ "-importkeystore";
    "-srckeystore"; fileName;
    "-srcstoretype"; "PKCS12";
    "-srcstorepass"; Password oldModel;
    "-destkeystore"; fileName2;
    "-deststoretype"; "PKCS12";
    "-deststorepass"; newPassword;
    "-destkeypass"; newPassword ].

Definition UpdateKeystoreBase64 (oldModel : KeystoreModel) (newPassword : string)
  : prog (string * option error) :=
  let fileName := FILENAME in
  let fileName2 := FILENAME2 in
  let '(decoded, err) := base64.DecodeString (Base64Text oldModel) in
  if err is Some err then Return (EmptyString, Some err) else
  err ← perform (WriteFile fileName decoded perm_0644);
  if err is Some err then Return (EmptyString, Some err) else
  '(out, err) ← perform (CombinedOutput "keytool"
                   (importkeystore_args oldModel newPassword fileName fileName2));
  if err is Some err then
    Return (EmptyString, Some (Errorf
      ("error changing password" +:+ LF +:+ "Error: " +:+ Error err
       +:+ LF +:+ "Output: " +:+ string_of_bytes out)))
  else
  err ← perform (Remove fileName);
  if err is Some err then
    Return (EmptyString, Some (Errorf
      ("error removing old keystore file after changing password" +:+ LF
       +:+ "File name: " +:+ fileName +:+ LF +:+ "Error: " +:+ Error err)))
  else
  '(bytes, err) ← perform (ReadFile fileName2);
  if err is Some err then
    Return (EmptyString, Some (Errorf
      ("error reading new keystore file after changing password" +:+ LF
       +:+ "File name: " +:+ fileName2 +:+ LF +:+ "Error: " +:+ Error err)))
  else
  err ← perform (Remove fileName2);
  if err is Some err then
    Return (EmptyString, Some (Errorf
      ("error removing keystore file after reading keystore file. Error: " +:+ Error err)))
  else
  Return (base64.EncodeToString bytes, None).

End keystore_model.

(** ** terraform-plugin-framework values the resource handles *)

(** [types.String]: null, unknown or a known value. *)
Inductive tfString : Type :=
| StringNull
| StringUnknown
| StringValue (s : string).

#[global] Instance tfString_eq_dec : EqDecision tfString.
Proof. solve_decision. Defined.

(** [ValueString()]: the known value, the empty string for null and unknown. *)
Definition ValueString (v : tfString) : string :=
  match v with
  | StringValue s => s
  | _ => EmptyString
  end.

(** A diagnostic of a response: an error or a warning with its summary and
    detail, or the error the framework reports when a null object is read
    into a struct. *)
Inductive Diagnostic : Type :=
| ErrorDiagnostic (summary detail : string)
| WarningDiagnostic (summary detail : string)
| ValueConversionError.

Definition is_error (d : Diagnostic) : bool :=
  match d with
  | WarningDiagnostic _ _ => false
  | _ => true
  end.

(** [Diagnostics.HasError()]. *)
Definition HasError (ds : list Diagnostic) : bool := existsb is_error ds.

Section Framework.
(** [T] is the resource data model, [zero] its Go zero value. *)
Context {T : Type} (zero : T).

(** [tfsdk.Plan.Get] and [tfsdk.State.Get] into a struct: [raw] is the
    object, [None] when it is null. *)
Definition Get (raw : option T) : T * list Diagnostic :=
  match raw with
  | Some data => (data, [])
  | None => (zero, [ValueConversionError])
  end.

(** A response: [resp.State] and [resp.Diagnostics]. *)
Record Response : Type := mkResponse {
  resp_State : option T;
  resp_Diagnostics : list Diagnostic
}.

(** [resp.Diagnostics.Append(ds...)]. *)
Definition Append (resp : Response) (ds : list Diagnostic) : Response :=
  mkResponse (resp_State resp) (resp_Diagnostics resp ++ ds).

(** [resp.Diagnostics.AddError(summary, detail)]. *)
Definition AddError (resp : Response) (summary detail : string) : Response :=
  Append resp [ErrorDiagnostic summary detail].

(** [resp.Diagnostics.Append(resp.State.Set(ctx, &data)...)]: the state
    becomes [data]; setting a struct of the schema's shape reports nothing. *)
Definition SetState (resp : Response) (data : T) : Response :=
  Append (mkResponse (Some data) (resp_Diagnostics resp)) [].

Record CreateRequest : Type := mkCreateRequest { create_Plan : option T }.
Record ReadRequest : Type := mkReadRequest { read_State : option T }.
Record UpdateRequest : Type := mkUpdateRequest {
  update_Plan : option T;
  update_State : option T
}.
Record DeleteRequest : Type := mkDeleteRequest { delete_State : option T }.
End Framework.
Arguments Response T : clear implicits.
Arguments CreateRequest T : clear implicits.
Arguments ReadRequest T : clear implicits.
Arguments UpdateRequest T : clear implicits.
Arguments DeleteRequest T : clear implicits.

(** ** The keystore resource over [keystore_model.go]
    (attributes [id], [password], [base64_text]) *)
Module keystore_resource.
Import keystore_model.

Record KeystoreResourceModel : Type := mkKeystoreResourceModel {
  Id : tfString;
  Password : tfString;
  Base64Text : tfString
}.

#[global] Instance KeystoreResourceModel_eq_dec : EqDecision KeystoreResourceModel.
Proof. solve_decision. Defined.

(** [var data KeystoreResourceModel]. *)
Definition zero : KeystoreResourceModel :=
  mkKeystoreResourceModel StringNull StringNull StringNull.

Definition ToKeystoreModel (r : KeystoreResourceModel) : KeystoreModel :=
  mkKeystoreModel (ValueString (Password r)) (ValueString (Base64Text r)).

Definition Create (req : CreateRequest KeystoreResourceModel)
    (resp : Response KeystoreResourceModel) : prog (Response KeystoreResourceModel) :=
  let '(data, diags) := Get zero (create_Plan req) in
  let resp := Append resp diags in
  if HasError (resp_Diagnostics resp) then Return resp else
  let model := ToKeystoreModel data in
  '(b64File, err) ← CreateKeystoreBase64 model;
  let model := mkKeystoreModel (keystore_model.Password model) b64File in
  if err is Some err then
    Return (AddError resp "Error during create operation" (Error err))
  else
  id ← perform UuidNewString;
  let data := mkKeystoreResourceModel (StringValue id) (Password data) (Base64Text data) in
  let data := mkKeystoreResourceModel (Id data) (Password data)
                (StringValue (keystore_model.Base64Text model)) in
  _ ← perform (TflogTrace "created a resource");
  Return (SetState resp data).

Definition Read (req : ReadRequest KeystoreResourceModel)
    (resp : Response KeystoreResourceModel) : prog (Response KeystoreResourceModel) :=
  let '(data, diags) := Get zero (read_State req) in
  let resp := Append resp diags in
  if HasError (resp_Diagnostics resp) then Return resp else
  Return (SetState resp data).

Definition Update (req : UpdateRequest KeystoreResourceModel)
    (resp : Response KeystoreResourceModel) : prog (Response KeystoreResourceModel) :=
  let '(data, diags) := Get zero (update_Plan req) in
  let resp := Append resp diags in
  let '(oldData, diags) := Get zero (update_State req) in
  let resp := Append resp diags in
  if HasError (resp_Diagnostics resp) then Return resp else
  (* reflect.DeepEqual(data, oldData) *)
  if bool_decide (data = oldData) then Return (SetState resp data) else
  let newModel := ToKeystoreModel data in
  let oldModel := ToKeystoreModel oldData in
  '(b64File, err) ← UpdateKeystoreBase64 oldModel (keystore_model.Password newModel);
  if err is Some err then
    Return (AddError resp "Error during update operation" (Error err))
  else
  let newModel := mkKeystoreModel (keystore_model.Password newModel) b64File in
  let data := mkKeystoreResourceModel (Id data) (Password data)
                (StringValue (keystore_model.Base64Text newModel)) in
  Return (SetState resp data).

Definition Delete (req : DeleteRequest KeystoreResourceModel)
    (resp : Response KeystoreResourceModel) : prog (Response KeystoreResourceModel) :=
  let '(data, diags) := Get zero (delete_State req) in
  let resp := Append resp diags in
  if HasError (resp_Diagnostics resp) then Return resp else
  Return resp.

End keystore_resource.

(** ** The keystore resource with distinguished-name attributes
    (attributes [id], [password], [file], [common_name] ... [country])

    The keystore model this variant of the resource converts to has a
    [File] and a [DistinguishedName]; its two operations are not part of
    the sources at hand and are parameters here. *)
Module keystore_resource_dn.

Record DistinguishedName : Type := mkDistinguishedName {
  dn_CommonName : string;
  dn_Organization : string;
  dn_OrganizationalUnit : string;
  dn_Locality : string;
  dn_State : string;
  dn_Country : string
}.

Record KeystoreModel : Type := mkKeystoreModel {
  model_Password : string;
  model_File : string;
  model_DistinguishedName : DistinguishedName
}.

Record KeystoreResourceModel : Type := mkKeystoreResourceModel {
  Id : tfString;
  Password : tfString;
  File : tfString;
  CommonName : tfString;
  Organization : tfString;
  OrganizationalUnit : tfString;
  Locality : tfString;
  State : tfString;
  Country : tfString
}.

#[global] Instance KeystoreResourceModel_eq_dec : EqDecision KeystoreResourceModel.
Proof. solve_decision. Defined.

Definition zero : KeystoreResourceModel :=
  mkKeystoreResourceModel StringNull StringNull StringNull StringNull StringNull
    StringNull StringNull StringNull StringNull.

Definition ToKeystoreModel (r : KeystoreResourceModel) : KeystoreModel :=
  mkKeystoreModel (ValueString (Password r)) (ValueString (File r))
    (mkDistinguishedName
       (ValueString (CommonName r))
       (ValueString (Organization r))
       (ValueString (OrganizationalUnit r))
       (ValueString (Locality r))
       (ValueString (State r))
       (ValueString (Country r))).

Definition with_File (data : KeystoreResourceModel) (file : tfString) : KeystoreResourceModel :=
  mkKeystoreResourceModel (Id data) (Password data) file (CommonName data)
    (Organization data) (OrganizationalUnit data) (Locality data) (State data)
    (Country data).

Section Operations.
Variable UpdateKeystoreBase64 : KeystoreModel -> string -> prog (string * option error).
Variable CreateKeystoreBase64 : KeystoreModel -> prog (string * option error).

Definition with_Id (data : KeystoreResourceModel) (id : tfString) : KeystoreResourceModel :=
  mkKeystoreResourceModel id (Password data) (File data) (CommonName data)
    (Organization data) (OrganizationalUnit data) (Locality data) (State data)
    (Country data).

Definition Create (req : CreateRequest KeystoreResourceModel)
    (resp : Response KeystoreResourceModel) : prog (Response KeystoreResourceModel) :=
  let '(data, diags) := Get zero (create_Plan req) in
  let resp := Append resp diags in
  if HasError (resp_Diagnostics resp) then Return resp else
  let model := ToKeystoreModel data in
  '(b64File, err) ← CreateKeystoreBase64 model;
  let model := mkKeystoreModel (model_Password model) b64File
                 (model_DistinguishedName model) in
  if err is Some err then
    Return (AddError resp "Error during create operation" (Error err))
  else
  id ← perform UuidNewString;
  let data := with_Id data (StringValue id) in
  let data := with_File data (StringValue (model_File model)) in
  _ ← perform (TflogTrace "created a resource");
  Return (SetState resp data).

Definition Delete (req : DeleteRequest KeystoreResourceModel)
    (resp : Response KeystoreResourceModel) : prog (Response KeystoreResourceModel) :=
  let '(data, diags) := Get zero (delete_State req) in
  let resp := Append resp diags in
  if HasError (resp_Diagnostics resp) then Return resp else
  Return resp.

Definition Read (req : ReadRequest KeystoreResourceModel)
    (resp : Response KeystoreResourceModel) : prog (Response KeystoreResourceModel) :=
  let '(data, diags) := Get zero (read_State req) in
  let resp := Append resp diags in
  if HasError (resp_Diagnostics resp) then Return resp else
  Return (SetState resp data).

Definition Update (req : UpdateRequest KeystoreResourceModel)
    (resp : Response KeystoreResourceModel) : prog (Response KeystoreResourceModel) :=
  let '(data, diags) := Get zero (update_Plan req) in
  let resp := Append resp diags in
  let '(oldData, diags) := Get zero (update_State req) in
  let resp := Append resp diags in
  if HasError (resp_Diagnostics resp) then Return resp else
  (* reflect.DeepEqual(data, oldData) *)
  if bool_decide (data = oldData) then Return (SetState resp data) else
  let newModel := ToKeystoreModel data in
  let oldModel := ToKeystoreModel oldData in
  '(b64File, err) ← UpdateKeystoreBase64 oldModel (model_Password newModel);
  if err is Some err then
    Return (AddError resp "Error during update operation" (Error err))
  else
  let newModel := mkKeystoreModel (model_Password newModel) b64File
                    (model_DistinguishedName newModel) in
  let data := with_File data (StringValue (model_File newModel)) in
  Return (SetState resp data).
End Operations.

End keystore_resource_dn.

(** ** Reading a command line *)

(** The options of [keytool] that take no value, as far as the two command
    lines of this package go. *)
Definition is_switch (a : string) : bool :=
  bool_decide (a = "-v") || bool_decide (a = "-genkeypair")
  || bool_decide (a = "-importkeystore").

(** The value given to the option [flag] on a command line: switches stand
    alone, any other option is followed by its value. *)
Fixpoint arg_value (flag : string) (args : list string) : option string :=
  match args with
  | a :: rest =>
      if is_switch a then arg_value flag rest
      else
        match rest with
        | v :: rest' => if bool_decide (a = flag) then Some v else arg_value flag rest'
        | [] => None
        end
  | [] => None
  end.

Arguments arg_value : simpl never.

(** The [-dname] values of the subprocesses of a run. *)
Definition dname_of_call (c : call) : list (option string) :=
  match c with
  | CombinedOutput _ arg => [arg_value "-dname" arg]
  | _ => []
  end.

(** ** The subject name as the specification words it

    A subject name built from the six distinguished-name fields, in the
    order of the [-dname] string of the code, [Unknown] standing for a field
    that is absent (the empty string, which is what [ValueString] gives for
    an attribute that is not configured). *)
Definition or_unknown (field : string) : string :=
  if bool_decide (field = EmptyString) then "Unknown" else field.

Definition subject_name_from_fields (dn : keystore_resource_dn.DistinguishedName) : string :=
  "CN=" +:+ or_unknown (keystore_resource_dn.dn_CommonName dn)
  +:+ ", OU=" +:+ or_unknown (keystore_resource_dn.dn_OrganizationalUnit dn)
  +:+ ", O=" +:+ or_unknown (keystore_resource_dn.dn_Organization dn)
  +:+ ", L=" +:+ or_unknown (keystore_resource_dn.dn_Locality dn)
  +:+ ", S=" +:+ or_unknown (keystore_resource_dn.dn_State dn)
  +:+ ", C=" +:+ or_unknown (keystore_resource_dn.dn_Country dn).

(** No field provided. *)
Definition no_fields : keystore_resource_dn.DistinguishedName :=
  keystore_resource_dn.mkDistinguishedName
    EmptyString EmptyString EmptyString EmptyString EmptyString EmptyString.

(** The fields of the acceptance test of the resource with
    distinguished-name attributes: only the common name is provided. *)
Definition test_fields : keystore_resource_dn.DistinguishedName :=
  keystore_resource_dn.mkDistinguishedName
    "MyCommonName" EmptyString EmptyString EmptyString EmptyString EmptyString.

(** ** The life cycle of one resource

    How the framework drives the resource once it is created, from the
    schema: [password] is Required, so its planned value is the configured
    one; [id] and [base64_text] are Computed, so they are unknown in a plan
    that changes the resource, and then [id] goes through its plan modifier
    [stringplanmodifier.UseStateForUnknown()].  The response of Read and of
    Update starts with the prior state and no diagnostics, and what it holds
    at the end is stored. *)
Module lifecycle.
Import keystore_resource.

(** [UseStateForUnknown]: nothing without a prior state, nothing for a
    planned value that is known or a configured value that is unknown;
    otherwise the planned value is the prior state's. *)
Definition UseStateForUnknown (state : option KeystoreResourceModel)
    (stateValue planValue configValue : tfString) : tfString :=
  match state with
  | None => planValue
  | Some _ =>
      match planValue with
      | StringUnknown =>
          match configValue with
          | StringUnknown => planValue
          | _ => stateValue
          end
      | _ => planValue
      end
  end.

Definition planned (password : tfString) (prior : KeystoreResourceModel)
  : KeystoreResourceModel :=
  mkKeystoreResourceModel
    (UseStateForUnknown (Some prior) (Id prior) StringUnknown StringNull)
    password
    StringUnknown.

Inductive op : Type :=
| Refresh                       (* terraform refresh: Read *)
| Apply (password : tfString).  (* terraform apply of a new configuration: Update *)

Definition step (o : op) (stored : option KeystoreResourceModel)
  : prog (option KeystoreResourceModel) :=
  match stored with
  | None => Return None
  | Some prior =>
      match o with
      | Refresh =>
          resp ← Read (mkReadRequest (Some prior)) (mkResponse (Some prior) []);
          Return (resp_State resp)
      | Apply password =>
          resp ← Update (mkUpdateRequest (Some (planned password prior)) (Some prior))
                   (mkResponse (Some prior) []);
          Return (resp_State resp)
      end
  end.

Fixpoint steps (ops : list op) (stored : option KeystoreResourceModel)
  : prog (option KeystoreResourceModel) :=
  match ops with
  | [] => Return stored
  | o :: ops' => stored' ← step o stored; steps ops' stored'
  end.

End lifecycle.

(** ** A small operating system to run the programs on

    Files in a map, a [keytool] that may not be installed, paths on which
    reading, writing or removing is refused, and a supply of identifiers.
    The [keytool] here writes a container that only records its password;
    it stands in for the real one in the examples. *)
Module testbed.

Record World : Type := mkWorld {
  files : gmap string bytes;
  keytool : option (list string -> gmap string bytes -> gmap string bytes * bytes * option error);
  read_refused : list string;
  write_refused : list string;
  remove_refused : list string;
  uuids : list string
}.

Definition with_files (w : World) (fs : gmap string bytes) : World :=
  mkWorld fs (keytool w) (read_refused w) (write_refused w) (remove_refused w) (uuids w).

Definition sys : system World := fun c w =>
  match c return answer c * World with
  | CombinedOutput name arg =>
      match keytool w with
      | Some tool =>
          if bool_decide (name = "keytool") then
            let '(fs, out, err) := tool arg (files w) in (out, err, with_files w fs)
          else ([], Some (SysError ("exec: " +:+ name +:+ ": executable file not found in $PATH")), w)
      | None => ([], Some (SysError ("exec: " +:+ name +:+ ": executable file not found in $PATH")), w)
      end
  | ReadFile name =>
      if bool_decide (name ∈ read_refused w)
      then ([], Some (SysError ("open " +:+ name +:+ ": permission denied")), w)
      else match files w !! name with
           | Some b => (b, None, w)
           | None => ([], Some (SysError ("open " +:+ name +:+ ": no such file or directory")), w)
           end
  | WriteFile name data perm =>
      if bool_decide (name ∈ write_refused w)
      then (Some (SysError ("open " +:+ name +:+ ": permission denied")), w)
      else (None, with_files w (<[name := data]> (files w)))
  | Remove name =>
      if bool_decide (name ∈ remove_refused w)
      then (Some (SysError ("remove " +:+ name +:+ ": operation not permitted")), w)
      else match files w !! name with
           | Some _ => (None, with_files w (delete name (files w)))
           | None => (Some (SysError ("remove " +:+ name +:+ ": no such file or directory")), w)
           end
  | UuidNewString =>
      match uuids w with
      | u :: rest =>
          (u, mkWorld (files w) (keytool w) (read_refused w) (write_refused w)
                (remove_refused w) rest)
      | [] => ("00000000-0000-4000-8000-000000000000", w)
      end
  | TflogTrace _ => (tt, w)
  end.

Definition container (password : string) : bytes :=
  bytes_of_string ("PKCS12:" +:+ password).

Definition exit_status_1 : option error := Some (SysError "exit status 1").

Definition toy_keytool (arg : list string) (fs : gmap string bytes)
  : gmap string bytes * bytes * option error :=
  if bool_decide ("-genkeypair" ∈ arg) then
    match arg_value "-keystore" arg, arg_value "-storepass" arg with
    | Some file, Some pass => (<[file := container pass]> fs, [], None)
    | _, _ => (fs, bytes_of_string "Illegal option", exit_status_1)
    end
  else if bool_decide ("-importkeystore" ∈ arg) then
    match arg_value "-srckeystore" arg, arg_value "-srcstorepass" arg,
          arg_value "-destkeystore" arg, arg_value "-deststorepass" arg with
    | Some src, Some srcpass, Some dest, Some destpass =>
        match fs !! src with
        | Some b =>
            if bool_decide (string_of_bytes b = "PKCS12:" +:+ srcpass)
            then (<[dest := container destpass]> fs, [], None)
            else (fs, bytes_of_string "keystore password was incorrect", exit_status_1)
        | None => (fs, bytes_of_string "keystore file does not exist", exit_status_1)
        end
    | _, _, _, _ => (fs, bytes_of_string "Illegal option", exit_status_1)
    end
  else (fs, bytes_of_string "Illegal option", exit_status_1).

(** An empty directory, [keytool] installed, nothing refused. *)
Definition fresh : World :=
  mkWorld ∅ (Some toy_keytool) [] [] [] ["3f2b8a0e-5c1d-4e7a-9b6f-0a1b2c3d4e5f"].

(** The same without [keytool]. *)
Definition no_keytool : World :=
  mkWorld ∅ None [] [] [] ["3f2b8a0e-5c1d-4e7a-9b6f-0a1b2c3d4e5f"].

(** The first temp file cannot be removed. *)
Definition sticky_first : World :=
  mkWorld ∅ (Some toy_keytool) [] [] [keystore_model.FILENAME] [].

(** The second temp file cannot be read. *)
Definition unreadable_second : World :=
  mkWorld ∅ (Some toy_keytool) [keystore_model.FILENAME2] [] [] [].

(** A model with the keystore the toy [keytool] makes for a password. *)
Definition model_of (password : string) : keystore_model.KeystoreModel :=
  keystore_model.mkKeystoreModel password (base64.EncodeToString (container password)).

End testbed.

(** ** Reading a run *)

(** The error a call came back with, if any. *)
Definition failure (ev : event) : option error :=
  match ev with
  | Event c a =>
      match c return answer c -> option error with
      | CombinedOutput _ _ => fun a => a.2
      | ReadFile _ => fun a => a.2
      | WriteFile _ _ _ => fun a => a
      | Remove _ => fun a => a
      | UuidNewString => fun _ => None
      | TflogTrace _ => fun _ => None
      end a
  end.

(** [msg] has [part] inside: how an error message shows the error it
    reports. *)
Definition mentions (msg part : string) : Prop :=
  exists before after, msg = before +:+ part +:+ after.

(** The calls of a password rotation that goes through, in their order. *)
Definition rotation_calls (decoded : bytes) (oldPassword newPassword : string) : list call :=
  [ WriteFile keystore_model.FILENAME decoded keystore_model.perm_0644;
    CombinedOutput "keytool"
      [ "-importkeystore";
        "-srckeystore"; keystore_model.FILENAME;
        "-srcstoretype"; "PKCS12";
        "-srcstorepass"; oldPassword;
        "-destkeystore"; keystore_model.FILENAME2;
        "-deststoretype"; "PKCS12";
        "-deststorepass"; newPassword;
        "-destkeypass"; newPassword ];
    Remove keystore_model.FILENAME;
    ReadFile keystore_model.FILENAME2;
    Remove keystore_model.FILENAME2 ].

(** The one subprocess of a keystore creation. *)
Definition genkeypair_call (password : string) : call :=
  CombinedOutput "keytool"
    [ "-v"; "-genkeypair";
      "-alias"; "keystore";
      "-keypass"; password;
      "-keystore"; keystore_model.FILENAME;
      "-storepass"; password;
      "-validity"; "10000";
      "-keyalg"; "RSA";
      "-keysize"; "2048";
      "-dname"; "CN=Unknown, OU=Unknown, O=Unknown, L=Unknown, S=Unknown, C=Unknown" ].

(** The [-dname] values a run passed to its subprocesses. *)
Definition dnames (t : list event) : list (option string) :=
  List.concat (dname_of_call <$> calls t).

(** ** The checks of the acceptance tests

    The state the checks read, as [terraform.State] gives it to them: the
    resources of the root module by name, each with the attributes of its
    primary instance.  A check returns an error or [nil]. *)
Module terraform.

Record InstanceState : Type := mkInstanceState { Attributes : gmap string string }.
Record ResourceState : Type := mkResourceState { Primary : InstanceState }.
Record ModuleState : Type := mkModuleState { Resources : gmap string ResourceState }.
Record State : Type := mkState { RootModule : ModuleState }.

End terraform.

(** [len(s)] of a Go string, in bytes. *)
Definition len (s : string) : Z := Z.of_nat (String.length s).

Module keystore_resource_test.
Import terraform.

Definition TestNamespace : string := "jks".
Definition TestType : string := "keystore".
Definition TestResourceInstanceName : string := "test".
Definition TestResourceFullName : string :=
  TestNamespace +:+ "_" +:+ TestType +:+ "." +:+ TestResourceInstanceName.

Definition testCheckResourceAttrLengthGreater
    (resourceName attributeName : string) (minLength : Z) (s : State) : option error :=
  match Resources (RootModule s) !! resourceName with
  | None => Some (Errorf ("not found: " +:+ resourceName))
  | Some rs =>
      match Attributes (Primary rs) !! attributeName with
      | None => Some (Errorf ("attribute not found: " +:+ attributeName))
      | Some attr =>
          if bool_decide (len attr < minLength) then
            Some (Errorf ("attribute " +:+ attributeName +:+ " length is "
                          +:+ pretty (len attr) +:+ ", less than " +:+ pretty minLength))
          else None
      end
  end.

(** The check of the resource with [base64_text]. *)
Definition testCheckKeepEncodedFile (s : State) : option error :=
  let rootModule := RootModule s in
  match Resources rootModule !! TestResourceFullName with
  | None => Some (Errorf ("not found: " +:+ TestResourceFullName))
  | Some rs =>
      match Attributes (Primary rs) !! "base64_text" with
      | None => Some (Errorf ("attribute not found: " +:+ "base64_text"))
      | Some val =>
          (* rootModule.Resources[TestResourceFullName].Primary.Attributes["base64_text"] *)
          let current :=
            default EmptyString
              (rs' ← Resources rootModule !! TestResourceFullName;
               Attributes (Primary rs') !! "base64_text") in
          if bool_decide (len current < 1000) then
            Some (Errorf ("attribute " +:+ "base64_text" +:+ " is " +:+ current
                          +:+ ", expected length > 1000"))
          else if bool_decide (current <> val) then
            Some (Errorf ("attribute " +:+ "base64_text" +:+ " is " +:+ val
                          +:+ ", expected " +:+ current))
          else None
      end
  end.

(** The check of the resource with [file]. *)
Definition testCheckKeepEncodedFile_file (s : State) : option error :=
  let rootModule := RootModule s in
  match Resources rootModule !! TestResourceFullName with
  | None => Some (Errorf ("not found: " +:+ TestResourceFullName))
  | Some rs =>
      match Attributes (Primary rs) !! "file" with
      | None => Some (Errorf ("attribute not found: " +:+ "file"))
      | Some val =>
          (* rootModule.Resources[TestResourceFullName].Primary.Attributes["file"] *)
          let current :=
            default EmptyString
              (rs' ← Resources rootModule !! TestResourceFullName;
               Attributes (Primary rs') !! "file") in
          if bool_decide (len current < 1000) then
            Some (Errorf ("attribute " +:+ "file" +:+ " is " +:+ current
                          +:+ ", expected length > 1000"))
          else if bool_decide (current <> val) then
            Some (Errorf ("attribute " +:+ "file" +:+ " is " +:+ val
                          +:+ ", expected " +:+ current))
          else None
      end
  end.

(** A state with one resource that has one attribute. *)
Definition state_with (resourceName attributeName value : string) : State :=
  mkState (mkModuleState
    {[ resourceName := mkResourceState (mkInstanceState {[ attributeName := value ]}) ]}).

End keystore_resource_test.

(** * Theorems *)

(** ** encoding/base64 on the test vectors of RFC 4648 *)

Example encode_foobar :
  base64.EncodeToString (bytes_of_string "foobar") = "Zm9vYmFy".
Proof. reflexivity. Qed.

Example encode_fooba :
  base64.EncodeToString (bytes_of_string "fooba") = "Zm9vYmE=".
Proof. reflexivity. Qed.

Example encode_f :
  base64.EncodeToString (bytes_of_string "f") = "Zg==".
Proof. reflexivity. Qed.

Example decode_foobar :
  base64.DecodeString "Zm9vYmFy" = (bytes_of_string "foobar", None).
Proof. reflexivity. Qed.

Example decode_padded :
  base64.DecodeString "Zm9vYg==" = (bytes_of_string "foob", None).
Proof. reflexivity. Qed.

Example decode_missing_padding :
  base64.DecodeString "Zm9vYg" = (bytes_of_string "foo", Some (CorruptInputError 4)).
Proof. reflexivity. Qed.

Example decode_bad_character :
  base64.DecodeString "Zm9v!mFy" = (bytes_of_string "foo", Some (CorruptInputError 4)).
Proof. reflexivity. Qed.

Example decode_one_byte :
  base64.DecodeString "Zg==" = (bytes_of_string "f", None).
Proof. reflexivity. Qed.

Example decode_across_newline :
  base64.DecodeString ("Zm9v" +:+ LF +:+ "YmFy") = (bytes_of_string "foobar", None).
Proof. reflexivity. Qed.

Example decode_short_padding :
  base64.DecodeString "Zg=" = ([], Some (CorruptInputError 3)).
Proof. reflexivity. Qed.

Example decode_trailing_garbage :
  base64.DecodeString "Zg==x" = (bytes_of_string "f", Some (CorruptInputError 4)).
Proof. reflexivity. Qed.

Example decode_empty :
  base64.DecodeString EmptyString = ([], None).
Proof. reflexivity. Qed.

Example corrupt_input_message :
  Error (CorruptInputError 4) = "illegal base64 data at input byte 4".
Proof. reflexivity. Qed.

(** ** Runs *)

Import keystore_model.

Lemma append_assoc (a b c : string) : (a +:+ b) +:+ c = a +:+ b +:+ c.
Proof.
  induction a as [|x a IH]; [reflexivity |].
  change (String x ((a +:+ b) +:+ c) = String x (a +:+ b +:+ c)).
  now rewrite IH.
Qed.

Lemma append_empty (s : string) : s +:+ EmptyString = s.
Proof.
  induction s as [|x s IH]; [reflexivity |].
  change (String x (s +:+ EmptyString) = String x s).
  now rewrite IH.
Qed.

Lemma mentions_intro (before part after : string) :
  mentions (before +:+ part +:+ after) part.
Proof. now exists before, after. Qed.

Lemma mentions_refl (s : string) : mentions s s.
Proof.
  exists EmptyString, EmptyString.
  change (s = s +:+ EmptyString). now rewrite append_empty.
Qed.

Lemma run_bind {W A B : Type} (sys : system W) (p : prog A) (f : A -> prog B) (w : W) :
  run sys (bind p f) w =
  let '(a, w1, t1) := run sys p w in
  let '(b, w2, t2) := run sys (f a) w1 in
  (b, w2, t1 ++ t2).
Proof.
  revert w. induction p as [a | c k IH]; intros w; cbn.
  - now destruct (run sys (f a) w) as [[b w2] t2].
  - destruct (sys c w) as [x w1]. rewrite IH.
    destruct (run sys (k x) w1) as [[a w2] t1].
    now destruct (run sys (f a) w2) as [[b w3] t2].
Qed.

(** One call of a run: name the answer and the next world. *)
Ltac call_step sys :=
  match goal with
  | |- context [sys ?c ?w] =>
      let a := fresh "a" in
      let w' := fresh "w" in
      let E := fresh "E" in
      destruct (sys c w) as [a w'] eqn:E; cbn in a; cbn
  end.

Lemma mentions_here (part after : string) : mentions (part +:+ after) part.
Proof. exists EmptyString, after. reflexivity. Qed.

Lemma mentions_skip (a t part : string) : mentions t part -> mentions (a +:+ t) part.
Proof.
  intros (before & after & ->). exists (a +:+ before), after.
  now rewrite append_assoc.
Qed.

Ltac mention :=
  repeat first [ apply mentions_refl | apply mentions_here | apply mentions_skip ].

(** Membership in a trace that is written out. *)
Ltac in_trace :=
  repeat match goal with
  | H : _ ∈ [] |- _ => apply elem_of_nil in H; destruct H
  | H : _ ∈ _ :: _ |- _ => apply elem_of_cons in H; destruct H as [-> | H]
  end.

Ltac failed :=
  match goal with
  | H : failure _ = Some _ |- _ => cbn in H; try discriminate H; try (injection H as ->)
  end.

(** All the calls of a run, with a case for each answer that may carry an
    error. *)
Ltac answers sys :=
  repeat (call_step sys;
          try match goal with
          | a : (bytes * option error)%type |- _ => destruct a as [? [?|]]
          | a : option error |- _ => destruct a as [?|]
          end; cbn).

(** ** encoding/base64: every error of [DecodeString] is a [CorruptInputError] *)

Lemma after_padding_error dbuf j rest si d e :
  base64.after_padding dbuf j rest si = (d, Some e) -> exists offset, e = CorruptInputError offset.
Proof.
  unfold base64.after_padding. destruct (base64.skip_newlines rest si) as [rest' si'].
  destruct rest'; intros H; inversion H; eauto.
Qed.

Lemma decode_from_error len rest :
  forall si j dbuf d e,
    base64.decode_from len rest si j dbuf = (d, Some e) ->
    exists offset, e = CorruptInputError offset.
Proof.
  induction rest as [|c rest IH]; intros si j dbuf d e H; cbn [base64.decode_from] in H.
  - destruct j; inversion H; eauto.
  - destruct (negb (base64.decodeMap c =? 255)%N).
    + destruct j as [|[|[|[|j]]]]; try (eapply IH; exact H).
      destruct (base64.decode_from len rest (si + 1) 0 []) as [tl err] eqn:E.
      inversion H; subst. eapply IH; exact E.
    + destruct (base64.is_newline c); [eapply IH; exact H|].
      destruct (negb (Ascii.eqb c base64.padChar)); [inversion H; eauto|].
      destruct j as [|[|[|j]]]; try (inversion H; eauto; fail);
        try (eapply after_padding_error; exact H).
      destruct (base64.skip_newlines rest (si + 1)) as [rest2 si2].
      destruct rest2 as [|c2 rest3]; [inversion H; eauto|].
      destruct (negb (Ascii.eqb c2 base64.padChar)); [inversion H; eauto|].
      eapply after_padding_error; exact H.
Qed.

Lemma DecodeString_error s d e :
  base64.DecodeString s = (d, Some e) -> exists offset, e = CorruptInputError offset.
Proof. apply decode_from_error. Qed.

(** ** encoding/base64: decoding undoes encoding *)

Lemma lor_disjoint_add (a b k : N) :
  (a mod 2 ^ k = 0)%N -> (b < 2 ^ k)%N -> N.lor a b = (a + b)%N.
Proof.
  intros Ha Hb. rewrite N.add_nocarry_lxor.
  - symmetry. apply N.lxor_lor.
    apply N.bits_inj. intros n. rewrite N.land_spec, N.bits_0.
    destruct (N.lt_ge_cases n k) as [Hn | Hn].
    + rewrite <- (N.mod_pow2_bits_low a k n Hn), Ha, N.bits_0. reflexivity.
    + rewrite <- (N.mod_small b (2 ^ k) Hb), N.mod_pow2_bits_high by exact Hn.
      apply andb_false_r.
  - apply N.bits_inj. intros n. rewrite N.land_spec, N.bits_0.
    destruct (N.lt_ge_cases n k) as [Hn | Hn].
    + rewrite <- (N.mod_pow2_bits_low a k n Hn), Ha, N.bits_0. reflexivity.
    + rewrite <- (N.mod_small b (2 ^ k) Hb), N.mod_pow2_bits_high by exact Hn.
      apply andb_false_r.
Qed.

Lemma land_63 (a : N) : N.land a 63 = (a mod 64)%N.
Proof. change 63%N with (N.ones 6). now rewrite N.land_ones. Qed.

Lemma land_255 (a : N) : N.land a 255 = (a mod 256)%N.
Proof. change 255%N with (N.ones 8). now rewrite N.land_ones. Qed.

Ltac to_arith :=
  rewrite ?land_63, ?land_255, ?N.shiftr_div_pow2, ?N.shiftl_mul_pow2;
  change (2 ^ 0)%N with 1%N; change (2 ^ 6)%N with 64%N; change (2 ^ 8)%N with 256%N;
  change (2 ^ 12)%N with 4096%N; change (2 ^ 16)%N with 65536%N;
  change (2 ^ 18)%N with 262144%N.

Ltac div_mod_lia := zify; Z.to_euclidean_division_equations; lia.

Lemma val_of_bytes (a b c : N) :
  (a < 256)%N -> (b < 256)%N -> (c < 256)%N ->
  N.lor (N.lor (N.shiftl a 16) (N.shiftl b 8)) c = (a * 65536 + b * 256 + c)%N.
Proof.
  intros Ha Hb Hc. to_arith.
  rewrite (lor_disjoint_add (a * 65536) (b * 256) 16).
  - rewrite (lor_disjoint_add _ c 8); [reflexivity | | exact Hc].
    change (2 ^ 8)%N with 256%N. div_mod_lia.
  - change (2 ^ 16)%N with 65536%N. div_mod_lia.
  - change (2 ^ 16)%N with 65536%N. lia.
Qed.

(** The four sextets of a 24-bit value put it back together. *)
Lemma sextets_of_val (val : N) :
  (val < 16777216)%N ->
  N.lor (N.lor (N.lor (N.shiftl (N.land (N.shiftr val 18) 63) 18)
                      (N.shiftl (N.land (N.shiftr val 12) 63) 12))
               (N.shiftl (N.land (N.shiftr val 6) 63) 6))
        (N.land (N.shiftr val 0) 63)
  = val.
Proof.
  intros Hv. to_arith.
  set (s18 := (val / 262144 mod 64)%N). set (s12 := (val / 4096 mod 64)%N).
  set (s6 := (val / 64 mod 64)%N). set (s0 := (val / 1 mod 64)%N).
  assert (s18 < 64 /\ s12 < 64 /\ s6 < 64 /\ s0 < 64)%N as (H18 & H12 & H6 & H0)
    by (subst s18 s12 s6 s0; repeat split; apply N.mod_lt; discriminate).
  rewrite (lor_disjoint_add (s18 * 262144) (s12 * 4096) 18);
    [| change (2 ^ 18)%N with 262144%N; div_mod_lia
     | change (2 ^ 18)%N with 262144%N; lia ].
  rewrite (lor_disjoint_add (s18 * 262144 + s12 * 4096) (s6 * 64) 12);
    [| change (2 ^ 12)%N with 4096%N; div_mod_lia
     | change (2 ^ 12)%N with 4096%N; lia ].
  rewrite (lor_disjoint_add _ s0 6);
    [| change (2 ^ 6)%N with 64%N; div_mod_lia
     | change (2 ^ 6)%N with 64%N; lia ].
  subst s18 s12 s6 s0. clear H18 H12 H6 H0. div_mod_lia.
Qed.

Lemma decodeMap_encode (v : N) :
  (v < 64)%N -> base64.decodeMap (base64.encode v) = v.
Proof.
  intros Hv. destruct v as [|p]; [reflexivity|].
  do 6 (destruct p as [p|p|]; try reflexivity); lia.
Qed.

Lemma uint_bounded (b : byte) : (base64.uint b < 256)%N.
Proof. unfold base64.uint. pose proof (Byte.to_N_bounded b). lia. Qed.

Lemma to_byte_land (b : byte) (v : N) :
  N.land v 255 = base64.uint b -> base64.to_byte v = b.
Proof.
  intros E. unfold base64.to_byte. rewrite E. unfold base64.uint.
  now rewrite Byte.of_to_N.
Qed.

Lemma sextet_index_lt (val k : N) : (base64.sextet_index val k < 64)%N.
Proof. unfold base64.sextet_index. rewrite land_63. apply N.mod_lt. discriminate. Qed.

Lemma decode_from_sextet len val k rest si j dbuf :
  base64.decode_from len (String (base64.sextet val k) rest) si j dbuf =
  match j with
  | 3%nat =>
      let '(tl, err) := base64.decode_from len rest (si + 1) 0 [] in
      (base64.quantum_bytes (dbuf ++ [base64.sextet_index val k]) 4 ++ tl, err)
  | _ => base64.decode_from len rest (si + 1) (S j) (dbuf ++ [base64.sextet_index val k])
  end.
Proof.
  cbn [base64.decode_from]. unfold base64.sextet.
  rewrite decodeMap_encode by apply sextet_index_lt.
  pose proof (sextet_index_lt val k) as Hlt.
  destruct (N.eqb_spec (base64.sextet_index val k) 255) as [E|_]; [lia|]. reflexivity.
Qed.

Lemma decode_from_pad2 len si dbuf :
  base64.decode_from len "==" si 2 dbuf = (base64.quantum_bytes dbuf 2, None).
Proof. reflexivity. Qed.

Lemma decode_from_pad1 len si dbuf :
  base64.decode_from len "=" si 3 dbuf = (base64.quantum_bytes dbuf 3, None).
Proof. reflexivity. Qed.

Lemma quantum_bytes_val (val s0 : N) (dbuf : list N) (dlen : nat) :
  (val < 16777216)%N ->
  s0 = base64.sextet_index val 0 ->
  nth 0 dbuf 0%N = base64.sextet_index val 18 -> nth 1 dbuf 0%N = base64.sextet_index val 12 ->
  nth 2 dbuf 0%N = base64.sextet_index val 6 -> nth 3 dbuf 0%N = s0 ->
  base64.quantum_bytes dbuf dlen =
  take (dlen - 1)%nat
    [base64.to_byte (N.shiftr val 16); base64.to_byte (N.shiftr val 8); base64.to_byte val].
Proof.
  intros Hv -> E0 E1 E2 E3. unfold base64.quantum_bytes.
  rewrite E0, E1, E2, E3. unfold base64.sextet_index. now rewrite sextets_of_val.
Qed.

Lemma list_ind3 {A : Type} (P : list A -> Prop) :
  P [] -> (forall a, P [a]) -> (forall a b, P [a; b]) ->
  (forall a b c l, P l -> P (a :: b :: c :: l)) ->
  forall l, P l.
Proof.
  intros H0 H1 H2 H3 l.
  enough (P l /\ (forall a, P (a :: l)) /\ (forall a b, P (a :: b :: l))) by tauto.
  induction l as [|x l (IH0 & IH1 & IH2)]; [auto|].
  split; [apply IH1|]. split; [intros a; apply IH2|]. intros a b. now apply H3.
Qed.

Ltac sextet_arith := unfold base64.sextet_index; to_arith; div_mod_lia.

Lemma decode_from_Encode (l : bytes) :
  forall len si, base64.decode_from len (base64.Encode l) si 0 [] = (l, None).
Proof.
  induction l as [| b0 | b0 b1 | b0 b1 b2 l IH] using list_ind3; intros len si.
  - reflexivity.
  - cbn [base64.Encode]. rewrite !decode_from_sextet. cbn [app]. rewrite decode_from_pad2.
    pose proof (uint_bounded b0) as Ha. set (a := base64.uint b0) in *.
    set (val := N.shiftl a 16).
    rewrite (quantum_bytes_val val (base64.sextet_index val 0));
      try reflexivity; try (subst val; cbn [nth]; sextet_arith).
    cbn [take Nat.sub]. f_equal. f_equal.
    apply to_byte_land. fold a. subst val. to_arith. div_mod_lia.
  - cbn [base64.Encode]. rewrite !decode_from_sextet. cbn [app]. rewrite decode_from_pad1.
    pose proof (uint_bounded b0) as Ha. set (a := base64.uint b0) in *.
    pose proof (uint_bounded b1) as Hb. set (b := base64.uint b1) in *.
    pose proof (val_of_bytes a b 0 Ha Hb eq_refl) as E.
    rewrite N.lor_0_r in E.
    set (val := N.lor (N.shiftl a 16) (N.shiftl b 8)) in *.
    rewrite (quantum_bytes_val val (base64.sextet_index val 0));
      try reflexivity; try (rewrite E; cbn [nth]; sextet_arith).
    cbn [take Nat.sub]. f_equal.
    f_equal; [|f_equal]; apply to_byte_land; rewrite E; [fold a | fold b]; to_arith;
      div_mod_lia.
  - cbn [base64.Encode]. rewrite !decode_from_sextet. cbn [app]. rewrite IH.
    pose proof (uint_bounded b0) as Ha. set (a := base64.uint b0) in *.
    pose proof (uint_bounded b1) as Hb. set (b := base64.uint b1) in *.
    pose proof (uint_bounded b2) as Hc. set (c := base64.uint b2) in *.
    pose proof (val_of_bytes a b c Ha Hb Hc) as E.
    set (val := N.lor (N.lor (N.shiftl a 16) (N.shiftl b 8)) c) in *.
    rewrite (quantum_bytes_val val (base64.sextet_index val 0));
      try reflexivity; try (rewrite E; lia).
    cbn [take Nat.sub app]. f_equal.
    f_equal; [|f_equal; [|f_equal]]; apply to_byte_land; rewrite E;
      [fold a | fold b | fold c]; to_arith; div_mod_lia.
Qed.

(** Whatever the bytes, [DecodeString] gives them back from the string
    [EncodeToString] made of them, without error. *)
Theorem DecodeString_EncodeToString (b : bytes) :
  base64.DecodeString (base64.EncodeToString b) = (b, None).
Proof. apply decode_from_Encode. Qed.

(** ** The keystore model *)

(** C1: whatever the system does, a step of [CreateKeystoreBase64] or of
    [UpdateKeystoreBase64] that fails (the [keytool] subprocess, a read, a
    write or a remove of a temp file) makes the operation return the empty
    string with an error whose message shows the error of the step; a blob
    that does not decode makes the rotation return the empty string with the
    decode error; and no result has an error next to a string that is not
    empty. *)
Theorem failures_return_empty_string_and_error :
  forall (W : Type) (sys : system W) (w : W) (m : KeystoreModel) (newPassword : string),
    let created := run sys (CreateKeystoreBase64 m) w in
    let updated := run sys (UpdateKeystoreBase64 m newPassword) w in
    (forall ev e, ev ∈ trace created -> failure ev = Some e ->
       exists e', result created = (EmptyString, Some e') /\ mentions (Error e') (Error e))
    /\ (forall ev e, ev ∈ trace updated -> failure ev = Some e ->
       exists e', result updated = (EmptyString, Some e') /\ mentions (Error e') (Error e))
    /\ (forall decoded e, base64.DecodeString (Base64Text m) = (decoded, Some e) ->
       result updated = (EmptyString, Some e))
    /\ (forall s e, result created = (s, Some e) -> s = EmptyString)
    /\ (forall s e, result updated = (s, Some e) -> s = EmptyString).
Proof.
  intros W sys w m newPassword created updated. subst created updated.
  unfold CreateKeystoreBase64, UpdateKeystoreBase64, perform.
  destruct (base64.DecodeString (Base64Text m)) as [decoded [derr|]] eqn:D; cbn;
    answers sys.
  all: repeat split; intros; in_trace; try failed;
       try (eexists; split; [reflexivity | cbn; mention]);
       try congruence.
Qed.

Lemma failures_return_empty_string_and_error_witness :
  exists e',
    result (run testbed.sys (CreateKeystoreBase64 (testbed.model_of "a")) testbed.no_keytool)
    = (EmptyString, Some e')
    /\ mentions (Error e') "exec: keytool: executable file not found in $PATH".
Proof.
  destruct (failures_return_empty_string_and_error testbed.World testbed.sys
              testbed.no_keytool (testbed.model_of "a") "b") as (H & _).
  apply (H (Event (CombinedOutput "keytool" (genkeypair_args (testbed.model_of "a") FILENAME))
                  ([], Some (SysError "exec: keytool: executable file not found in $PATH")))
           (SysError "exec: keytool: executable file not found in $PATH")).
  - vm_compute. left.
  - reflexivity.
Defined.

(** C2: the calls of [UpdateKeystoreBase64] are always the first calls of
    this list, in this order, and all of it when the operation returns no
    error: write the bytes decoded from the blob to the first temp file, run
    [keytool -importkeystore] (source and destination store type [PKCS12],
    the old password for the source, the new password for the destination
    store and key), remove the first temp file, read the second temp file,
    remove the second temp file.  The string returned is then the base64
    encoding of what was read from the second temp file. *)
Theorem rotation_steps_in_order :
  forall (W : Type) (sys : system W) (w : W) (oldModel : KeystoreModel) (newPassword : string),
    let r := run sys (UpdateKeystoreBase64 oldModel newPassword) w in
    let decoded := (base64.DecodeString (Base64Text oldModel)).1 in
    calls (trace r) `prefix_of` rotation_calls decoded (Password oldModel) newPassword
    /\ (forall s, result r = (s, None) ->
        (base64.DecodeString (Base64Text oldModel)).2 = None
        /\ calls (trace r) = rotation_calls decoded (Password oldModel) newPassword
        /\ exists out contents,
             trace r =
               [ Event (WriteFile FILENAME decoded perm_0644) None;
                 Event (CombinedOutput "keytool"
                          (importkeystore_args oldModel newPassword FILENAME FILENAME2))
                       (out, None);
                 Event (Remove FILENAME) None;
                 Event (ReadFile FILENAME2) (contents, None);
                 Event (Remove FILENAME2) None ]
             /\ s = base64.EncodeToString contents).
Proof.
  intros W sys w oldModel newPassword r decoded. subst r decoded.
  unfold UpdateKeystoreBase64, perform.
  destruct (base64.DecodeString (Base64Text oldModel)) as [decoded [derr|]] eqn:D; cbn;
    answers sys.
  all: split; [ eexists; reflexivity | intros s Hs; try discriminate Hs ].
  injection Hs as <-. repeat split. eauto.
Qed.

Lemma rotation_steps_in_order_witness :
  calls (trace (run testbed.sys (UpdateKeystoreBase64 (testbed.model_of "a") "b") testbed.fresh))
  = rotation_calls (testbed.container "a") "a" "b".
Proof.
  destruct (rotation_steps_in_order testbed.World testbed.sys testbed.fresh
              (testbed.model_of "a") "b") as [_ H].
  destruct (H "UEtDUzEyOmI=") as (_ & Hc & _); [vm_compute; reflexivity | exact Hc].
Defined.

(** C3: whatever the system does, [CreateKeystoreBase64] runs one
    subprocess, and it is its first call: [keytool -v -genkeypair] with the
    alias [keystore], validity 10000, key algorithm RSA, key size 2048, the
    fixed keystore file name, and the password of the model for both
    [-keypass] and [-storepass]. *)
Theorem create_runs_one_genkeypair :
  forall (W : Type) (sys : system W) (w : W) (m : KeystoreModel),
    let r := run sys (CreateKeystoreBase64 m) w in
    let arg := genkeypair_args m FILENAME in
    List.filter is_exec (calls (trace r)) = [genkeypair_call (Password m)]
    /\ head (calls (trace r)) = Some (genkeypair_call (Password m))
    /\ genkeypair_call (Password m) = CombinedOutput "keytool" arg
    /\ arg_value "-alias" arg = Some "keystore"
    /\ arg_value "-validity" arg = Some "10000"
    /\ arg_value "-keyalg" arg = Some "RSA"
    /\ arg_value "-keysize" arg = Some "2048"
    /\ arg_value "-keystore" arg = Some FILENAME
    /\ arg_value "-keypass" arg = Some (Password m)
    /\ arg_value "-storepass" arg = Some (Password m).
Proof.
  intros W sys w m r arg. subst r arg.
  split; [|split; [|repeat split; vm_compute; reflexivity]].
  - unfold CreateKeystoreBase64, perform. cbn. answers sys; reflexivity.
  - unfold CreateKeystoreBase64, perform. cbn. answers sys; reflexivity.
Qed.



(** C5: a blob that [base64.StdEncoding.DecodeString] rejects makes
    [UpdateKeystoreBase64] return that error, a [CorruptInputError], with
    the empty string, without any call: no file is written, no subprocess
    runs, and the world is as it was. *)
Theorem corrupt_blob_fails_before_any_effect :
  forall (W : Type) (sys : system W) (w : W) (oldModel : KeystoreModel)
         (newPassword : string) (decoded : bytes) (err : error),
    base64.DecodeString (Base64Text oldModel) = (decoded, Some err) ->
    run sys (UpdateKeystoreBase64 oldModel newPassword) w = (EmptyString, Some err, w, [])
    /\ exists offset, err = CorruptInputError offset.
Proof.
  intros W sys w oldModel newPassword decoded err D. split.
  - unfold UpdateKeystoreBase64. now rewrite D.
  - eapply DecodeString_error; exact D.
Qed.

Lemma corrupt_blob_fails_before_any_effect_witness :
  run testbed.sys (UpdateKeystoreBase64 (mkKeystoreModel "a" "not base64!") "b") testbed.fresh
  = (EmptyString, Some (CorruptInputError 3), testbed.fresh, []).
Proof.
  apply (corrupt_blob_fails_before_any_effect testbed.World testbed.sys testbed.fresh
           (mkKeystoreModel "a" "not base64!") "b" []).
  reflexivity.
Defined.

(** C10: the empty string decodes to no bytes without error, so
    [UpdateKeystoreBase64] on a model whose blob is empty first writes the
    empty first temp file and, when that write succeeds, next runs the
    [keytool -importkeystore] subprocess; more generally any blob that
    decodes, whatever the bytes, gets past the decode check to the write of
    the first temp file. *)
Theorem empty_blob_passes_the_decode_check :
  forall (W : Type) (sys : system W) (w : W) (password newPassword : string),
    let r := run sys (UpdateKeystoreBase64 (mkKeystoreModel password EmptyString) newPassword) w in
    base64.DecodeString EmptyString = ([], None)
    /\ head (calls (trace r)) = Some (WriteFile FILENAME [] perm_0644)
    /\ (forall ev rest, trace r = ev :: rest -> failure ev = None ->
        head (calls rest)
        = Some (CombinedOutput "keytool"
                  (importkeystore_args (mkKeystoreModel password EmptyString) newPassword
                     FILENAME FILENAME2)))
    /\ (forall oldModel decoded,
        base64.DecodeString (Base64Text oldModel) = (decoded, None) ->
        head (calls (trace (run sys (UpdateKeystoreBase64 oldModel newPassword) w)))
        = Some (WriteFile FILENAME decoded perm_0644)).
Proof.
  intros W sys w password newPassword r. subst r.
  split; [reflexivity|].
  unfold UpdateKeystoreBase64, perform. cbn.
  split; [|split].
  - call_step sys. destruct a as [?|]; [reflexivity|]. cbn.
    call_step sys. now destruct (run sys _ _) as [[? ?] ?].
  - intros ev rest. call_step sys. destruct a as [?|]; cbn.
    + intros H; injection H as <- <-. discriminate.
    + call_step sys. destruct (run sys _ _) as [[? ?] ?] eqn:R.
      intros H; injection H as <- <-. reflexivity.
  - intros oldModel decoded D. rewrite D. cbn.
    call_step sys. destruct a as [?|]; [reflexivity|].
    now destruct (run sys _ _) as [[? ?] ?].
Qed.

Lemma empty_blob_passes_the_decode_check_witness :
  head (calls (trace (run testbed.sys (UpdateKeystoreBase64 (mkKeystoreModel "a" "AAAA") "b")
                        testbed.fresh)))
  = Some (WriteFile FILENAME [x00; x00; x00] perm_0644).
Proof.
  destruct (empty_blob_passes_the_decode_check testbed.World testbed.sys testbed.fresh "a" "b")
    as (_ & _ & _ & H).
  apply (H (mkKeystoreModel "a" "AAAA")). reflexivity.
Defined.

(** C8: a rotation can fail and leave the second temp file behind.  In a
    directory without the file, [UpdateKeystoreBase64] returns an error
    after a failed removal of the first temp file, and in another run after
    a failed read of the second, and in both the second temp file is there
    afterwards. *)
Theorem rotation_can_leave_second_file_behind :
  (exists (w : testbed.World) (oldModel : KeystoreModel) (newPassword : string),
     let r := run testbed.sys (UpdateKeystoreBase64 oldModel newPassword) w in
     (exists e, result r = (EmptyString, Some e))
     /\ last (calls (trace r)) = Some (Remove FILENAME)
     /\ testbed.files w !! FILENAME2 = None
     /\ is_Some (testbed.files (world_after r) !! FILENAME2))
  /\ (exists (w : testbed.World) (oldModel : KeystoreModel) (newPassword : string),
     let r := run testbed.sys (UpdateKeystoreBase64 oldModel newPassword) w in
     (exists e, result r = (EmptyString, Some e))
     /\ last (calls (trace r)) = Some (ReadFile FILENAME2)
     /\ testbed.files w !! FILENAME2 = None
     /\ is_Some (testbed.files (world_after r) !! FILENAME2)).
Proof.
  split.
  - exists testbed.sticky_first, (testbed.model_of "a"), "b".
    vm_compute. repeat split; eauto.
  - exists testbed.unreadable_second, (testbed.model_of "a"), "b".
    vm_compute. repeat split; eauto.
Qed.

(** X13: on every system, a rotation that returns an error has removed the
    second temp file in none of its calls: the only removal of it is the
    last step, and the error is then that removal's. *)
Lemma failed_rotation_never_removes_second_file :
  forall (W : Type) (sys : system W) (w : W) (oldModel : KeystoreModel) (newPassword : string),
    let r := run sys (UpdateKeystoreBase64 oldModel newPassword) w in
    forall s e, result r = (s, Some e) ->
    forall ev, ev ∈ trace r -> ev_call ev = Remove FILENAME2 -> failure ev <> None.
Proof.
  intros W sys w oldModel newPassword r. subst r.
  unfold UpdateKeystoreBase64, perform.
  destruct (base64.DecodeString (Base64Text oldModel)) as [decoded [derr|]] eqn:D; cbn;
    answers sys.
  all: intros s e' H ev Hin Hc; in_trace; cbn in *; try discriminate.
Qed.

(** ** The keystore resource *)

Import keystore_resource.

Lemma HasError_app (a b : list Diagnostic) : HasError (a ++ b) = HasError a || HasError b.
Proof. apply existsb_app. Qed.

Lemma conversion_error_is_error (ds : list Diagnostic) :
  existsb is_error (ds ++ [ValueConversionError]) = true.
Proof. rewrite existsb_app. cbn. apply orb_true_r. Qed.

Lemma rotation_draws_no_uuid :
  forall (W : Type) (sys : system W) (w : W) (oldModel : KeystoreModel) (newPassword : string),
    List.filter is_uuid (calls (trace (run sys (UpdateKeystoreBase64 oldModel newPassword) w))) = [].
Proof.
  intros W sys w oldModel newPassword. unfold UpdateKeystoreBase64, perform.
  destruct (base64.DecodeString (keystore_model.Base64Text oldModel)) as [decoded [derr|]]; cbn;
    answers sys; reflexivity.
Qed.

(** A successful Create stores the identifier that [uuid.New] gave in its
    one call; a failed Create stores nothing and draws no identifier. *)
Lemma create_assigns_fresh_id :
  forall (W : Type) (sys : system W) (w : W) (data : KeystoreResourceModel),
    let r := run sys (Create (mkCreateRequest (Some data)) (mkResponse None [])) w in
    match resp_State (result r) with
    | Some stored =>
        exists u, Id stored = StringValue u
          /\ List.filter (fun ev => is_uuid (ev_call ev)) (trace r) = [Event UuidNewString u]
          /\ HasError (resp_Diagnostics (result r)) = false
    | None =>
        List.filter is_uuid (calls (trace r)) = []
        /\ HasError (resp_Diagnostics (result r)) = true
    end.
Proof.
  intros W sys w data r. subst r. unfold Create, CreateKeystoreBase64, perform. cbn.
  answers sys; eauto.
Qed.

(** Update draws no identifier, and the state it leaves is the one the
    response came with or the planned data with a new base64 text: its [Id]
    is the planned one. *)
Lemma update_never_assigns_id :
  forall (W : Type) (sys : system W) (w : W)
         (req : UpdateRequest KeystoreResourceModel) (resp : Response KeystoreResourceModel),
    let r := run sys (Update req resp) w in
    List.filter is_uuid (calls (trace r)) = []
    /\ (resp_State (result r) = resp_State resp
        \/ exists data base64Text,
             update_Plan req = Some data
             /\ resp_State (result r)
                = Some (mkKeystoreResourceModel (Id data) (Password data) base64Text)).
Proof.
  intros W sys w [plan st] resp r. subst r. unfold Update.
  cbn [update_Plan update_State].
  destruct (Get zero plan) as [data d1] eqn:G1.
  destruct (Get zero st) as [oldData d2] eqn:G2.
  destruct (HasError _) eqn:HE; [cbn; auto|].
  destruct plan as [plan|]; cbn in G1; injection G1 as <- <-.
  2:{ cbn in HE. rewrite !HasError_app in HE. cbn in HE.
      rewrite orb_true_r in HE. discriminate HE. }
  destruct (bool_decide (plan = oldData)).
  { cbn. split; [reflexivity|]. right. exists plan, (Base64Text plan).
    now destruct plan. }
  unfold mbind, prog_bind. rewrite run_bind.
  pose proof (rotation_draws_no_uuid W sys w (ToKeystoreModel oldData)
                (keystore_model.Password (ToKeystoreModel plan))) as U.
  destruct (run sys (UpdateKeystoreBase64 _ _) w) as [[[b64 [err|]] w1] t1]; cbn in *.
  - rewrite app_nil_r. auto.
  - rewrite app_nil_r. split; [exact U|]. right. eauto.
Qed.

Lemma lifecycle_step_keeps_id :
  forall (W : Type) (sys : system W) (w : W) (o : lifecycle.op)
         (u : string) (password base64Text : tfString),
    let r := run sys (lifecycle.step o
                        (Some (mkKeystoreResourceModel (StringValue u) password base64Text))) w in
    (exists password' base64Text',
        result r = Some (mkKeystoreResourceModel (StringValue u) password' base64Text'))
    /\ List.filter is_uuid (calls (trace r)) = [].
Proof.
  intros W sys w o u password base64Text r. subst r. destruct o as [|newPassword].
  - cbn. eauto.
  - unfold lifecycle.step, mbind, prog_bind. rewrite run_bind.
    match goal with |- context [run sys (Update ?req ?resp) w] =>
      pose proof (update_never_assigns_id W sys w req resp) as [U S];
      destruct (run sys (Update req resp) w) as [[resp' w1] t1]
    end.
    cbn in *. rewrite app_nil_r. split; [|exact U].
    destruct S as [-> | (data & b & Hp & ->)]; [eauto|].
    injection Hp as <-. cbn. eauto.
Qed.

Lemma lifecycle_keeps_id :
  forall (W : Type) (sys : system W) (ops : list lifecycle.op) (w : W)
         (u : string) (password base64Text : tfString),
    let r := run sys (lifecycle.steps ops
                        (Some (mkKeystoreResourceModel (StringValue u) password base64Text))) w in
    (exists password' base64Text',
        result r = Some (mkKeystoreResourceModel (StringValue u) password' base64Text'))
    /\ List.filter is_uuid (calls (trace r)) = [].
Proof.
  intros W sys ops. induction ops as [|o ops IH]; intros w u password base64Text r; subst r.
  - cbn. eauto.
  - cbn [lifecycle.steps]. unfold mbind, prog_bind. rewrite run_bind.
    pose proof (lifecycle_step_keeps_id W sys w o u password base64Text) as [(p1 & b1 & S) U].
    destruct (run sys (lifecycle.step o _) w) as [[st1 w1] t1]. cbn in S, U. subst st1.
    specialize (IH w1 u p1 b1). destruct IH as [(p2 & b2 & S2) U2].
    destruct (run sys (lifecycle.steps ops _) w1) as [[st2 w2] t2].
    unfold result, trace, calls in *. cbn [fst snd] in *.
    split; [eauto|]. rewrite fmap_app, List.filter_app, U, U2. reflexivity.
Qed.


(** C7: Read writes the prior state back.  Given the prior state, with the
    response holding it as the framework passes it, Read leaves that state in
    the response, makes no call and leaves the world as it was, for the
    resource with [base64_text] and for the one with [file] and the
    distinguished-name attributes; given a prior state and no diagnostics it
    sets the response state to it whatever the response held; and any number
    of refreshes in a row leaves the stored data, identifier, password and
    base64 text, as it was. *)
Theorem read_writes_back_prior_state :
  (forall (W : Type) (sys : system W) (w : W)
          (prior : option KeystoreResourceModel) (ds : list Diagnostic),
      let r := run sys (Read (mkReadRequest prior) (mkResponse prior ds)) w in
      resp_State (result r) = prior /\ world_after r = w /\ trace r = [])
  /\ (forall (W : Type) (sys : system W) (w : W)
          (prior : option keystore_resource_dn.KeystoreResourceModel) (ds : list Diagnostic),
      let r := run sys (keystore_resource_dn.Read (mkReadRequest prior) (mkResponse prior ds)) w in
      resp_State (result r) = prior /\ world_after r = w /\ trace r = [])
  /\ (forall (W : Type) (sys : system W) (w : W)
          (prior : KeystoreResourceModel) (held : option KeystoreResourceModel),
      run sys (Read (mkReadRequest (Some prior)) (mkResponse held [])) w
      = (mkResponse (Some prior) [], w, []))
  /\ (forall (W : Type) (sys : system W) (w : W)
          (prior : keystore_resource_dn.KeystoreResourceModel)
          (held : option keystore_resource_dn.KeystoreResourceModel),
      run sys (keystore_resource_dn.Read (mkReadRequest (Some prior)) (mkResponse held [])) w
      = (mkResponse (Some prior) [], w, []))
  /\ (forall (W : Type) (sys : system W) (w : W) (n : nat) (prior : KeystoreResourceModel),
      run sys (lifecycle.steps (replicate n lifecycle.Refresh) (Some prior)) w
      = (Some prior, w, [])).
Proof.
  split; [|split; [|split; [|split]]].
  - intros W sys w [data|] ds r; subst r; unfold Read; cbn.
    + match goal with |- context [if ?b then _ else _] => destruct b end; cbn; auto.
    + rewrite conversion_error_is_error. cbn. auto.
  - intros W sys w [data|] ds r; subst r; unfold keystore_resource_dn.Read; cbn.
    + match goal with |- context [if ?b then _ else _] => destruct b end; cbn; auto.
    + rewrite conversion_error_is_error. cbn. auto.
  - reflexivity.
  - reflexivity.
  - intros W sys w n prior. induction n as [|n IH]; [reflexivity|].
    cbn [replicate lifecycle.steps]. unfold mbind, prog_bind. rewrite run_bind.
    cbn. now rewrite IH.
Qed.

(** C9: when the planned data equals the prior state data, Update sets the
    state to the planned data and returns: the run makes no call at all (no
    subprocess, no temp file), the world is as it was, no diagnostic is
    added, and the state, base64 value included, is the prior one.  This
    holds for the resource with [base64_text] and, whatever its rotation
    operation does, for the one with [file] and the distinguished-name
    attributes. *)
Theorem update_with_equal_plan_is_noop :
  (forall (W : Type) (sys : system W) (w : W) (data : KeystoreResourceModel)
          (held : option KeystoreResourceModel),
      run sys (Update (mkUpdateRequest (Some data) (Some data)) (mkResponse held [])) w
      = (mkResponse (Some data) [], w, []))
  /\ (forall (W : Type) (sys : system W) (w : W)
          (rotate : keystore_resource_dn.KeystoreModel -> string -> prog (string * option error))
          (data : keystore_resource_dn.KeystoreResourceModel)
          (held : option keystore_resource_dn.KeystoreResourceModel),
      run sys (keystore_resource_dn.Update rotate
                 (mkUpdateRequest (Some data) (Some data)) (mkResponse held [])) w
      = (mkResponse (Some data) [], w, [])).
Proof.
  split.
  - intros. unfold Update. cbn. rewrite bool_decide_eq_true_2 by reflexivity. reflexivity.
  - intros. unfold keystore_resource_dn.Update. cbn.
    rewrite bool_decide_eq_true_2 by reflexivity. reflexivity.
Qed.

(** * More of the keystore model *)

Import keystore_model.

(** A creation that returns no error made its three calls with success. *)
Lemma creation_success_inv :
  forall (W : Type) (sys : system W) (w : W) (m : KeystoreModel) (s : string) (w' : W)
         (t : list event),
    run sys (CreateKeystoreBase64 m) w = (s, None, w', t) ->
    exists out contents w1 w2,
      sys (CombinedOutput "keytool" (genkeypair_args m FILENAME)) w = (out, None, w1)
      /\ sys (ReadFile FILENAME) w1 = (contents, None, w2)
      /\ sys (Remove FILENAME) w2 = (None, w')
      /\ s = base64.EncodeToString contents
      /\ t = [ Event (CombinedOutput "keytool" (genkeypair_args m FILENAME)) (out, None);
               Event (ReadFile FILENAME) (contents, None);
               Event (Remove FILENAME) None ].
Proof.
  intros W sys w m s w' t. unfold CreateKeystoreBase64, perform. cbn.
  answers sys; intros H; try discriminate H.
  injection H as <- <- <-. eauto 10.
Qed.

(** A rotation that returns no error decoded the blob and made its five
    calls with success. *)
Lemma rotation_success_inv :
  forall (W : Type) (sys : system W) (w : W) (oldModel : KeystoreModel)
         (newPassword s : string) (w' : W) (t : list event),
    run sys (UpdateKeystoreBase64 oldModel newPassword) w = (s, None, w', t) ->
    exists decoded out contents w1 w2 w3 w4,
      base64.DecodeString (Base64Text oldModel) = (decoded, None)
      /\ sys (WriteFile FILENAME decoded perm_0644) w = (None, w1)
      /\ sys (CombinedOutput "keytool"
                (importkeystore_args oldModel newPassword FILENAME FILENAME2)) w1
         = (out, None, w2)
      /\ sys (Remove FILENAME) w2 = (None, w3)
      /\ sys (ReadFile FILENAME2) w3 = (contents, None, w4)
      /\ sys (Remove FILENAME2) w4 = (None, w')
      /\ s = base64.EncodeToString contents
      /\ t = [ Event (WriteFile FILENAME decoded perm_0644) None;
               Event (CombinedOutput "keytool"
                        (importkeystore_args oldModel newPassword FILENAME FILENAME2))
                     (out, None);
               Event (Remove FILENAME) None;
               Event (ReadFile FILENAME2) (contents, None);
               Event (Remove FILENAME2) None ].
Proof.
  intros W sys w oldModel newPassword s w' t. unfold UpdateKeystoreBase64, perform.
  destruct (base64.DecodeString (Base64Text oldModel)) as [decoded [derr|]] eqn:D; cbn;
    answers sys; intros H; try discriminate H.
  injection H as <- <- <-. eauto 20.
Qed.

(** X1: whatever the system does, the calls of [CreateKeystoreBase64] are
    the first calls of this list, in this order, and all of it when the
    operation returns no error: the [keytool -genkeypair] subprocess, the
    read of the temp file, the removal of the temp file.  The string
    returned is then the base64 encoding of what was read. *)
Theorem creation_steps_in_order :
  forall (W : Type) (sys : system W) (w : W) (m : KeystoreModel),
    let r := run sys (CreateKeystoreBase64 m) w in
    let steps := [ genkeypair_call (Password m); ReadFile FILENAME; Remove FILENAME ] in
    calls (trace r) `prefix_of` steps
    /\ (forall s, result r = (s, None) ->
        calls (trace r) = steps
        /\ exists contents,
             Event (ReadFile FILENAME) (contents, None) ∈ trace r
             /\ s = base64.EncodeToString contents).
Proof.
  intros W sys w m r steps. subst r steps.
  unfold CreateKeystoreBase64, perform. cbn.
  answers sys.
  all: split; [ eexists; reflexivity | intros s Hs; try discriminate Hs ].
  injection Hs as <-. split; [reflexivity|]. eexists. split; [|reflexivity].
  apply list_elem_of_further, list_elem_of_here.
Qed.

Lemma creation_steps_in_order_witness :
  calls (trace (run testbed.sys (CreateKeystoreBase64 (testbed.model_of "a")) testbed.fresh))
  = [ genkeypair_call "a"; ReadFile FILENAME; Remove FILENAME ].
Proof.
  destruct (creation_steps_in_order testbed.World testbed.sys testbed.fresh
              (testbed.model_of "a")) as [_ H].
  destruct (H "UEtDUzEyOmE=") as (Hc & _); [vm_compute; reflexivity | exact Hc].
Defined.

(** X2: the string a successful [CreateKeystoreBase64] or
    [UpdateKeystoreBase64] returns decodes, without error, to the very bytes
    the operation read from its temp file; so a later rotation of a model
    that holds this string, on any system, gets past the decode check and
    first writes exactly these bytes to the first temp file. *)
Theorem blob_returned_is_accepted_by_rotation :
  forall (W : Type) (sys : system W) (w : W) (m : KeystoreModel) (newPassword : string),
    (forall s, result (run sys (CreateKeystoreBase64 m) w) = (s, None) ->
       exists contents,
         Event (ReadFile FILENAME) (contents, None) ∈ trace (run sys (CreateKeystoreBase64 m) w)
         /\ base64.DecodeString s = (contents, None)
         /\ forall (W' : Type) (sys' : system W') (w' : W') (password newPassword' : string),
              head (calls (trace (run sys' (UpdateKeystoreBase64 (mkKeystoreModel password s)
                                              newPassword') w')))
              = Some (WriteFile FILENAME contents perm_0644))
    /\ (forall s, result (run sys (UpdateKeystoreBase64 m newPassword) w) = (s, None) ->
       exists contents,
         Event (ReadFile FILENAME2) (contents, None)
           ∈ trace (run sys (UpdateKeystoreBase64 m newPassword) w)
         /\ base64.DecodeString s = (contents, None)
         /\ forall (W' : Type) (sys' : system W') (w' : W') (password newPassword' : string),
              head (calls (trace (run sys' (UpdateKeystoreBase64 (mkKeystoreModel password s)
                                              newPassword') w')))
              = Some (WriteFile FILENAME contents perm_0644)).
Proof.
  intros W sys w m newPassword.
  assert (forall contents (W' : Type) (sys' : system W') (w' : W') (password newPassword' : string),
            head (calls (trace (run sys' (UpdateKeystoreBase64
                                            (mkKeystoreModel password
                                               (base64.EncodeToString contents))
                                            newPassword') w')))
            = Some (WriteFile FILENAME contents perm_0644)) as Hhead.
  { intros contents W' sys' w' password newPassword'.
    unfold UpdateKeystoreBase64, perform. cbn [Base64Text].
    rewrite DecodeString_EncodeToString. cbn.
    call_step sys'. destruct a as [?|]; [reflexivity|].
    now destruct (run sys' _ _) as [[? ?] ?]. }
  split; intros s Hs.
  - destruct (run sys (CreateKeystoreBase64 m) w) as [[[s' e] w1] t] eqn:R.
    cbn in Hs. injection Hs as -> ->.
    apply creation_success_inv in R as (out & contents & ? & ? & _ & _ & _ & -> & ->).
    exists contents. split; [apply list_elem_of_further, list_elem_of_here|].
    split; [apply DecodeString_EncodeToString | apply Hhead].
  - destruct (run sys (UpdateKeystoreBase64 m newPassword) w) as [[[s' e] w1] t] eqn:R.
    cbn in Hs. injection Hs as -> ->.
    apply rotation_success_inv in R
      as (decoded & out & contents & ? & ? & ? & ? & _ & _ & _ & _ & _ & _ & -> & ->).
    exists contents. split; [do 3 apply list_elem_of_further; apply list_elem_of_here|].
    split; [apply DecodeString_EncodeToString | apply Hhead].
Qed.

(** X3: a creation that returns an error has removed nothing: every
    [os.Remove] of the run came back with an error, so after a failed read
    the temp file [keytool] made is still there. *)
Theorem failed_creation_removes_nothing :
  forall (W : Type) (sys : system W) (w : W) (m : KeystoreModel),
    let r := run sys (CreateKeystoreBase64 m) w in
    forall s e, result r = (s, Some e) ->
    forall ev name, ev ∈ trace r -> ev_call ev = Remove name -> failure ev <> None.
Proof.
  intros W sys w m r. subst r. unfold CreateKeystoreBase64, perform. cbn.
  answers sys.
  all: intros s e' H ev name Hin Hc; in_trace; cbn in *; try discriminate.
Qed.

Lemma failed_creation_removes_nothing_witness :
  Forall (fun ev => forall name, ev_call ev = Remove name -> failure ev <> None)
    (trace (run testbed.sys (CreateKeystoreBase64 (testbed.model_of "a"))
              testbed.sticky_first)).
Proof.
  apply Forall_forall. intros ev Hin name. revert Hin.
  eapply (failed_creation_removes_nothing testbed.World testbed.sys testbed.sticky_first
            (testbed.model_of "a")).
  vm_compute. reflexivity.
Defined.

Lemma testbed_remove_ok (w w' : testbed.World) (name : string) :
  testbed.sys (Remove name) w = (None, w') ->
  testbed.files w' = delete name (testbed.files w).
Proof.
  cbn. destruct (bool_decide _); [discriminate|].
  destruct (testbed.files w !! name); intros H; inversion H. reflexivity.
Qed.

Lemma testbed_read_keeps_world (w w' : testbed.World) (name : string)
    (a : bytes * option error) :
  testbed.sys (ReadFile name) w = (a, w') -> w' = w.
Proof.
  cbn. destruct (bool_decide _); [now intros H; inversion H|].
  destruct (testbed.files w !! name); intros H; now inversion H.
Qed.

Lemma temp_files_differ : FILENAME <> FILENAME2.
Proof. intros H. apply (f_equal String.length) in H. vm_compute in H. discriminate H. Qed.

(** X5: on the file system of the test bed, whatever is installed as
    [keytool] and whatever paths are refused, an operation that returns no
    error leaves no temp file: the first is gone after a creation, the first
    and the second after a rotation. *)
Theorem success_removes_temp_files :
  forall (w : testbed.World) (m : KeystoreModel) (newPassword : string),
    (forall s, result (run testbed.sys (CreateKeystoreBase64 m) w) = (s, None) ->
       testbed.files (world_after (run testbed.sys (CreateKeystoreBase64 m) w)) !! FILENAME
       = None)
    /\ (forall s, result (run testbed.sys (UpdateKeystoreBase64 m newPassword) w) = (s, None) ->
       let fs := testbed.files (world_after (run testbed.sys
                                               (UpdateKeystoreBase64 m newPassword) w)) in
       fs !! FILENAME = None /\ fs !! FILENAME2 = None).
Proof.
  intros w m newPassword. split; intros s Hs.
  - destruct (run testbed.sys (CreateKeystoreBase64 m) w) as [[[s' e] w1] t] eqn:R.
    cbn in Hs. injection Hs as -> ->.
    apply creation_success_inv in R as (out & contents & wa & wb & _ & _ & Hrm & _).
    apply testbed_remove_ok in Hrm. cbn. rewrite Hrm. apply lookup_delete_eq.
  - destruct (run testbed.sys (UpdateKeystoreBase64 m newPassword) w) as [[[s' e] w1] t] eqn:R.
    cbn in Hs. injection Hs as -> ->.
    apply rotation_success_inv in R
      as (decoded & out & contents & wa & wb & wc & wd & _ & _ & _ & Hrm1 & Hrd & Hrm2 & _).
    apply testbed_remove_ok in Hrm1, Hrm2. apply testbed_read_keeps_world in Hrd. subst wd.
    cbn. rewrite Hrm2, Hrm1. split.
    + rewrite lookup_delete_ne by (intros H; symmetry in H; exact (temp_files_differ H)).
      apply lookup_delete_eq.
    + apply lookup_delete_eq.
Qed.

Lemma success_removes_temp_files_witness :
  let fs := testbed.files (world_after (run testbed.sys
                             (UpdateKeystoreBase64 (testbed.model_of "a") "b") testbed.fresh)) in
  fs !! FILENAME = None /\ fs !! FILENAME2 = None.
Proof.
  destruct (success_removes_temp_files testbed.fresh (testbed.model_of "a") "b") as [_ H].
  apply (H "UEtDUzEyOmI="). vm_compute. reflexivity.
Defined.

(** X4: when the [keytool] subprocess of a rotation fails, the run calls
    [os.Remove] for no file, on any system; on the file system of the test
    bed, with no [keytool] installed and the first temp file writable, the
    rotation returns an error and the first temp file stays with the decoded
    keystore in it. *)
Theorem failed_keytool_leaves_decoded_keystore :
  (forall (W : Type) (sys : system W) (w : W) (oldModel : KeystoreModel) (newPassword : string),
     let r := run sys (UpdateKeystoreBase64 oldModel newPassword) w in
     forall ev, ev ∈ trace r -> is_exec (ev_call ev) = true -> failure ev <> None ->
     forall name, Remove name ∉ calls (trace r))
  /\ (forall (w : testbed.World) (oldModel : KeystoreModel) (newPassword : string)
            (decoded : bytes),
     base64.DecodeString (Base64Text oldModel) = (decoded, None) ->
     testbed.keytool w = None ->
     FILENAME ∉ testbed.write_refused w ->
     let r := run testbed.sys (UpdateKeystoreBase64 oldModel newPassword) w in
     (exists e, result r = (EmptyString, Some e))
     /\ testbed.files (world_after r) !! FILENAME = Some decoded).
Proof.
  split.
  - intros W sys w oldModel newPassword r. subst r.
    unfold UpdateKeystoreBase64, perform.
    destruct (base64.DecodeString (Base64Text oldModel)) as [decoded [derr|]] eqn:D; cbn;
      answers sys.
    all: intros ev Hin Hx Hf name Hrm; in_trace; cbn in *; try discriminate;
         try congruence.
    all: unfold calls in Hrm; cbn in Hrm;
         repeat match goal with
         | H : _ ∈ [] |- _ => apply elem_of_nil in H; destruct H
         | H : _ ∈ _ :: _ |- _ =>
             apply elem_of_cons in H; destruct H as [H | H]; [discriminate H|]
         end.
  - intros w oldModel newPassword decoded D Hk Hw r. subst r.
    unfold UpdateKeystoreBase64, perform. rewrite D. cbn.
    rewrite bool_decide_eq_false_2 by exact Hw. cbn. rewrite Hk. cbn.
    split; [eauto|]. apply lookup_insert_eq.
Qed.

(** * More of the keystore resource *)

Import keystore_resource.

(** X6: Create of the resource with [base64_text], given a plan, runs
    [CreateKeystoreBase64] on the planned password.  When that fails the
    response keeps the state it held, gets the one error diagnostic
    [Error during create operation] with the message of the error, and
    nothing else is called.  When it succeeds the state becomes the planned
    password with a new identifier and the string returned, no diagnostic is
    added, and the only calls after the model's are [uuid.New] and
    [tflog.Trace]. *)
Theorem create_stores_plan_with_new_keystore :
  forall (W : Type) (sys : system W) (w : W) (data : KeystoreResourceModel)
         (held : option KeystoreResourceModel),
    let m := run sys (CreateKeystoreBase64
                        (mkKeystoreModel (ValueString (Password data))
                                         (ValueString (Base64Text data)))) w in
    let r := run sys (Create (mkCreateRequest (Some data)) (mkResponse held [])) w in
    match result m with
    | (_, Some err) =>
        r = (mkResponse held [ErrorDiagnostic "Error during create operation" (Error err)],
             world_after m, trace m)
    | (b64File, None) =>
        exists id,
          result r = mkResponse
                       (Some (mkKeystoreResourceModel (StringValue id) (Password data)
                                (StringValue b64File))) []
          /\ trace r = trace m ++ [Event UuidNewString id;
                                   Event (TflogTrace "created a resource") tt]
    end.
Proof.
  intros W sys w data held m r. subst m r. unfold Create. cbn [create_Plan Get].
  cbn [Append resp_Diagnostics resp_State app HasError existsb].
  unfold mbind, prog_bind. rewrite run_bind. unfold ToKeystoreModel.
  destruct (run sys (CreateKeystoreBase64 _) w) as [[[b64 [err|]] w1] t1]; cbn.
  - now rewrite app_nil_r.
  - destruct (sys UuidNewString w1) as [id w2]. cbn in id.
    destruct (sys (TflogTrace "created a resource") w2) as [[] w3]. cbn. eauto.
Qed.

(** X7: Update of the resource with [base64_text], given a plan that
    differs from the prior state, runs [UpdateKeystoreBase64] on the prior
    password and blob with the planned password, and calls nothing else.
    When that fails the response keeps the state it held and gets the one
    error diagnostic [Error during update operation]; when it succeeds the
    state is the planned identifier and password with the string returned,
    whatever base64 text the plan held. *)
Theorem update_stores_plan_with_rotated_keystore :
  forall (W : Type) (sys : system W) (w : W) (data oldData : KeystoreResourceModel)
         (held : option KeystoreResourceModel),
    data <> oldData ->
    let m := run sys (UpdateKeystoreBase64
                        (mkKeystoreModel (ValueString (Password oldData))
                                         (ValueString (Base64Text oldData)))
                        (ValueString (Password data))) w in
    let r := run sys (Update (mkUpdateRequest (Some data) (Some oldData))
                        (mkResponse held [])) w in
    world_after r = world_after m /\ trace r = trace m
    /\ match result m with
       | (_, Some err) =>
           result r
           = mkResponse held [ErrorDiagnostic "Error during update operation" (Error err)]
       | (b64File, None) =>
           result r
           = mkResponse (Some (mkKeystoreResourceModel (Id data) (Password data)
                                 (StringValue b64File))) []
       end.
Proof.
  intros W sys w data oldData held Hne m r. subst m r. unfold Update.
  cbn [update_Plan update_State Get].
  cbn [Append resp_Diagnostics resp_State app HasError existsb].
  rewrite bool_decide_eq_false_2 by exact Hne.
  unfold mbind, prog_bind. rewrite run_bind. unfold ToKeystoreModel.
  destruct (run sys (UpdateKeystoreBase64 _ _) w) as [[[b64 [err|]] w1] t1]; cbn;
    now rewrite app_nil_r.
Qed.

Lemma HasError_true_app (a b : list Diagnostic) :
  HasError a = true -> HasError (a ++ b) = true.
Proof. intros H. now rewrite HasError_app, H. Qed.

Lemma HasError_conversion (a b : list Diagnostic) :
  HasError ((a ++ [ValueConversionError]) ++ b) = true.
Proof. rewrite !HasError_app. cbn. now rewrite orb_true_r. Qed.

(** X8: Create and Update make no call and leave the state of the
    response as it is, with an error among its diagnostics, when the
    response already holds an error diagnostic or the plan (for Update, also
    the prior state) is null. *)
Theorem error_diagnostics_stop_before_any_call :
  forall (W : Type) (sys : system W) (w : W),
    (forall (req : CreateRequest KeystoreResourceModel) (resp : Response KeystoreResourceModel),
       HasError (resp_Diagnostics resp) = true \/ create_Plan req = None ->
       let r := run sys (Create req resp) w in
       trace r = [] /\ world_after r = w
       /\ resp_State (result r) = resp_State resp
       /\ HasError (resp_Diagnostics (result r)) = true)
    /\ (forall (req : UpdateRequest KeystoreResourceModel) (resp : Response KeystoreResourceModel),
       HasError (resp_Diagnostics resp) = true \/ update_Plan req = None
       \/ update_State req = None ->
       let r := run sys (Update req resp) w in
       trace r = [] /\ world_after r = w
       /\ resp_State (result r) = resp_State resp
       /\ HasError (resp_Diagnostics (result r)) = true).
Proof.
  intros W sys w. split.
  - intros [plan] resp H r. subst r. unfold Create. cbn [create_Plan].
    destruct (Get zero plan) as [data diags] eqn:G.
    assert (HasError (resp_Diagnostics (Append resp diags)) = true) as ->.
    { cbn. destruct H as [H | H]; [now apply HasError_true_app|].
      cbn in H. subst plan. injection G as <- <-.
      rewrite HasError_app. cbn. apply orb_true_r. }
    cbn. destruct H as [H | H]; repeat split; try reflexivity.
    + now apply HasError_true_app.
    + cbn in H. subst plan. injection G as <- <-. rewrite HasError_app. cbn.
      apply orb_true_r.
  - intros [plan st] resp H r. subst r. unfold Update. cbn [update_Plan update_State].
    destruct (Get zero plan) as [data d1] eqn:G1.
    destruct (Get zero st) as [oldData d2] eqn:G2.
    assert (HasError (resp_Diagnostics (Append (Append resp d1) d2)) = true) as E.
    { cbn. destruct H as [H | [H | H]].
      - now apply HasError_true_app, HasError_true_app.
      - cbn in H. subst plan. injection G1 as <- <-. apply HasError_conversion.
      - cbn in H. subst st. injection G2 as <- <-.
        rewrite HasError_app. cbn. apply orb_true_r. }
    rewrite E. cbn. repeat split; try reflexivity. exact E.
Qed.

Lemma error_diagnostics_stop_before_any_call_witness :
  trace (run testbed.sys (Update (mkUpdateRequest None (Some zero)) (mkResponse (Some zero) []))
           testbed.fresh) = [].
Proof.
  destruct (error_diagnostics_stop_before_any_call testbed.World testbed.sys testbed.fresh)
    as [_ H].
  apply (H (mkUpdateRequest None (Some zero)) (mkResponse (Some zero) [])).
  right. left. reflexivity.
Defined.

(** X9: Delete, of either resource, makes no call, leaves the world and
    the state of the response as they are, and adds no diagnostic when there
    is a prior state: it removes no file and runs no subprocess. *)
Theorem delete_does_nothing :
  (forall (W : Type) (sys : system W) (w : W)
          (req : DeleteRequest KeystoreResourceModel) (resp : Response KeystoreResourceModel),
     let r := run sys (Delete req resp) w in
     trace r = [] /\ world_after r = w /\ resp_State (result r) = resp_State resp
     /\ (forall prior, delete_State req = Some prior ->
         resp_Diagnostics (result r) = resp_Diagnostics resp))
  /\ (forall (W : Type) (sys : system W) (w : W)
          (req : DeleteRequest keystore_resource_dn.KeystoreResourceModel)
          (resp : Response keystore_resource_dn.KeystoreResourceModel),
     let r := run sys (keystore_resource_dn.Delete req resp) w in
     trace r = [] /\ world_after r = w /\ resp_State (result r) = resp_State resp
     /\ (forall prior, delete_State req = Some prior ->
         resp_Diagnostics (result r) = resp_Diagnostics resp)).
Proof.
  split.
  - intros W sys w [st] resp r. subst r. unfold Delete. cbn [delete_State].
    destruct (Get zero st) as [data diags] eqn:G.
    destruct (HasError _); cbn; repeat split; try reflexivity;
      intros prior ->; injection G as <- <-; apply app_nil_r.
  - intros W sys w [st] resp r. subst r. unfold keystore_resource_dn.Delete.
    cbn [delete_State].
    destruct (Get keystore_resource_dn.zero st) as [data diags] eqn:G.
    destruct (HasError _); cbn; repeat split; try reflexivity;
      intros prior ->; injection G as <- <-; apply app_nil_r.
Qed.

Lemma delete_does_nothing_witness :
  resp_Diagnostics (result (run testbed.sys
                              (Delete (mkDeleteRequest (Some zero)) (mkResponse (Some zero) []))
                              testbed.fresh)) = [].
Proof.
  destruct delete_does_nothing as [H _].
  destruct (H testbed.World testbed.sys testbed.fresh (mkDeleteRequest (Some zero))
              (mkResponse (Some zero) [])) as (_ & _ & _ & Hd).
  apply (Hd zero). reflexivity.
Defined.

(** X10: the resource with [file] and the distinguished-name attributes,
    whatever its two model operations do.  Create runs the creation on the
    model of the plan; on failure the response keeps its state and gets the
    one error diagnostic, on success the state is the plan with a new
    identifier and the string returned as [file], every distinguished-name
    attribute and the password as planned.  Update with a plan that differs
    from the prior state runs the rotation on the model of the prior state
    with the planned password; on failure the state is kept, on success it is
    the plan with only [file] replaced. *)
Theorem dn_resource_keeps_planned_attributes :
  forall (W : Type) (sys : system W) (w : W)
         (rotate : keystore_resource_dn.KeystoreModel -> string -> prog (string * option error))
         (create : keystore_resource_dn.KeystoreModel -> prog (string * option error))
         (data oldData : keystore_resource_dn.KeystoreResourceModel)
         (held : option keystore_resource_dn.KeystoreResourceModel),
    (let m := run sys (create (keystore_resource_dn.ToKeystoreModel data)) w in
     let r := run sys (keystore_resource_dn.Create create
                         (mkCreateRequest (Some data)) (mkResponse held [])) w in
     match result m with
     | (_, Some err) =>
         r = (mkResponse held [ErrorDiagnostic "Error during create operation" (Error err)],
              world_after m, trace m)
     | (b64File, None) =>
         exists id,
           result r = mkResponse
             (Some (keystore_resource_dn.mkKeystoreResourceModel
                      (StringValue id)
                      (keystore_resource_dn.Password data)
                      (StringValue b64File)
                      (keystore_resource_dn.CommonName data)
                      (keystore_resource_dn.Organization data)
                      (keystore_resource_dn.OrganizationalUnit data)
                      (keystore_resource_dn.Locality data)
                      (keystore_resource_dn.State data)
                      (keystore_resource_dn.Country data))) []
           /\ trace r = trace m ++ [Event UuidNewString id;
                                    Event (TflogTrace "created a resource") tt]
     end)
    /\ (data <> oldData ->
        let m := run sys (rotate (keystore_resource_dn.ToKeystoreModel oldData)
                            (ValueString (keystore_resource_dn.Password data))) w in
        let r := run sys (keystore_resource_dn.Update rotate
                            (mkUpdateRequest (Some data) (Some oldData))
                            (mkResponse held [])) w in
        world_after r = world_after m /\ trace r = trace m
        /\ match result m with
           | (_, Some err) =>
               result r
               = mkResponse held [ErrorDiagnostic "Error during update operation" (Error err)]
           | (b64File, None) =>
               result r
               = mkResponse
                   (Some (keystore_resource_dn.mkKeystoreResourceModel
                            (keystore_resource_dn.Id data)
                            (keystore_resource_dn.Password data)
                            (StringValue b64File)
                            (keystore_resource_dn.CommonName data)
                            (keystore_resource_dn.Organization data)
                            (keystore_resource_dn.OrganizationalUnit data)
                            (keystore_resource_dn.Locality data)
                            (keystore_resource_dn.State data)
                            (keystore_resource_dn.Country data))) []
           end).
Proof.
  intros W sys w rotate create data oldData held. split.
  - intros m r. subst m r. unfold keystore_resource_dn.Create. cbn [create_Plan Get].
    cbn [Append resp_Diagnostics resp_State app HasError existsb].
    unfold mbind, prog_bind. rewrite run_bind.
    destruct (run sys (create _) w) as [[[b64 [err|]] w1] t1]; cbn.
    + now rewrite app_nil_r.
    + destruct (sys UuidNewString w1) as [id w2]. cbn in id.
      destruct (sys (TflogTrace "created a resource") w2) as [[] w3]. cbn. eauto.
  - intros Hne m r. subst m r. unfold keystore_resource_dn.Update.
    cbn [update_Plan update_State Get].
    cbn [Append resp_Diagnostics resp_State app HasError existsb].
    rewrite bool_decide_eq_false_2 by exact Hne.
    unfold mbind, prog_bind. rewrite run_bind.
    destruct (run sys (rotate _ _) w) as [[[b64 [err|]] w1] t1]; cbn;
      now rewrite app_nil_r.
Qed.

(** * The checks of the acceptance tests *)

Import terraform keystore_resource_test.

(** X11: [testCheckResourceAttrLengthGreater] passes exactly when the
    resource and the attribute are in the state and the attribute is at
    least [minLength] bytes long: a value of exactly [minLength] bytes
    passes, and with a [minLength] of zero or less so does the empty
    string. *)
Theorem length_check_accepts_the_minimum :
  forall (resourceName attributeName : string) (minLength : Z),
    (forall s : State,
       testCheckResourceAttrLengthGreater resourceName attributeName minLength s = None
       <-> exists rs attr,
             Resources (RootModule s) !! resourceName = Some rs
             /\ Attributes (Primary rs) !! attributeName = Some attr
             /\ minLength <= len attr)
    /\ (forall value : string,
       testCheckResourceAttrLengthGreater resourceName attributeName (len value)
         (state_with resourceName attributeName value) = None)
    /\ (forall value : string,
       minLength <= 0 ->
       testCheckResourceAttrLengthGreater resourceName attributeName minLength
         (state_with resourceName attributeName value) = None).
Proof.
  intros resourceName attributeName minLength.
  assert (forall s : State,
       testCheckResourceAttrLengthGreater resourceName attributeName minLength s = None
       <-> exists rs attr,
             Resources (RootModule s) !! resourceName = Some rs
             /\ Attributes (Primary rs) !! attributeName = Some attr
             /\ minLength <= len attr) as Hiff.
  { intros s. unfold testCheckResourceAttrLengthGreater.
    destruct (Resources (RootModule s) !! resourceName) as [rs|] eqn:R.
    - destruct (Attributes (Primary rs) !! attributeName) as [attr|] eqn:A.
      + case_bool_decide as Hl.
        * split; [discriminate|]. intros (rs' & attr' & E1 & E2 & Hle).
          injection E1 as <-. rewrite A in E2. injection E2 as <-. lia.
        * split; [|reflexivity]. intros _. exists rs, attr. repeat split; [exact A | lia].
      + split; [discriminate|]. intros (rs' & attr' & E1 & E2 & _).
        injection E1 as <-. rewrite A in E2. discriminate E2.
    - split; [discriminate|]. intros (rs' & attr' & E1 & _). discriminate E1. }
  split; [exact Hiff|].
  split.
  - intros value. unfold testCheckResourceAttrLengthGreater, state_with. cbn.
    rewrite lookup_singleton_eq. cbn. rewrite lookup_singleton_eq.
    rewrite bool_decide_eq_false_2 by lia. reflexivity.
  - intros value Hm. unfold testCheckResourceAttrLengthGreater, state_with. cbn.
    rewrite lookup_singleton_eq. cbn. rewrite lookup_singleton_eq.
    rewrite bool_decide_eq_false_2; [reflexivity|]. unfold len. lia.
Qed.

Lemma length_check_accepts_the_minimum_witness :
  testCheckResourceAttrLengthGreater TestResourceFullName "id" 0
    (state_with TestResourceFullName "id" EmptyString) = None.
Proof.
  destruct (length_check_accepts_the_minimum TestResourceFullName "id" 0) as (_ & _ & H).
  apply H. lia.
Defined.

(** X12: [testCheckKeepEncodedFile], for [base64_text] and for [file],
    passes exactly when the resource and the attribute are in the state and
    the attribute is at least 1000 bytes long; its comparison of the
    attribute with the value read a second time from the same state never
    fails the check. *)
Theorem keep_encoded_file_checks_only_the_length :
  (forall s : State,
     testCheckKeepEncodedFile s = None
     <-> exists rs val,
           Resources (RootModule s) !! TestResourceFullName = Some rs
           /\ Attributes (Primary rs) !! "base64_text" = Some val
           /\ 1000 <= len val)
  /\ (forall s : State,
     testCheckKeepEncodedFile_file s = None
     <-> exists rs val,
           Resources (RootModule s) !! TestResourceFullName = Some rs
           /\ Attributes (Primary rs) !! "file" = Some val
           /\ 1000 <= len val).
Proof.
  split; intros s.
  - unfold testCheckKeepEncodedFile. cbn zeta.
    destruct (Resources (RootModule s) !! TestResourceFullName) as [rs|] eqn:R.
    + cbn [mbind option_bind]. 
      destruct (Attributes (Primary rs) !! "base64_text") as [val|] eqn:A.
      * cbn. case_bool_decide as Hl.
        -- split; [discriminate|]. intros (rs' & val' & E1 & E2 & Hle).
           injection E1 as <-. rewrite A in E2. injection E2 as <-. lia.
        -- rewrite bool_decide_eq_false_2 by (intros H; now apply H).
           split; [|reflexivity]. intros _. exists rs, val. repeat split; [exact A | lia].
      * split; [discriminate|]. intros (rs' & val' & E1 & E2 & _).
        injection E1 as <-. rewrite A in E2. discriminate E2.
    + split; [discriminate|]. intros (rs' & val' & E1 & _). discriminate E1.
  - unfold testCheckKeepEncodedFile_file. cbn zeta.
    destruct (Resources (RootModule s) !! TestResourceFullName) as [rs|] eqn:R.
    + cbn [mbind option_bind].
      destruct (Attributes (Primary rs) !! "file") as [val|] eqn:A.
      * cbn. case_bool_decide as Hl.
        -- split; [discriminate|]. intros (rs' & val' & E1 & E2 & Hle).
           injection E1 as <-. rewrite A in E2. injection E2 as <-. lia.
        -- rewrite bool_decide_eq_false_2 by (intros H; now apply H).
           split; [|reflexivity]. intros _. exists rs, val. repeat split; [exact A | lia].
      * split; [discriminate|]. intros (rs' & val' & E1 & E2 & _).
        injection E1 as <-. rewrite A in E2. discriminate E2.
    + split; [discriminate|]. intros (rs' & val' & E1 & _). discriminate E1.
Qed.


(** * Witnesses on the test bed *)

Lemma blob_returned_is_accepted_by_rotation_witness :
  exists contents,
    base64.DecodeString "UEtDUzEyOmE=" = (contents, None)
    /\ Event (ReadFile keystore_model.FILENAME) (contents, None)
         ∈ trace (run testbed.sys
                    (keystore_model.CreateKeystoreBase64 (testbed.model_of "a")) testbed.fresh).
Proof.
  destruct (blob_returned_is_accepted_by_rotation testbed.World testbed.sys testbed.fresh
              (testbed.model_of "a") "b") as [H _].
  destruct (H "UEtDUzEyOmE=") as (contents & Hin & Hd & _); [vm_compute; reflexivity|].
  exists contents. split; [exact Hd | exact Hin].
Defined.

Lemma failed_rotation_never_removes_second_file_witness :
  Forall (fun ev => ev_call ev = Remove keystore_model.FILENAME2 -> failure ev <> None)
    (trace (run testbed.sys
              (keystore_model.UpdateKeystoreBase64 (testbed.model_of "a") "b")
              testbed.unreadable_second)).
Proof.
  apply Forall_forall. intros ev Hin. revert Hin.
  eapply (failed_rotation_never_removes_second_file testbed.World testbed.sys
            testbed.unreadable_second (testbed.model_of "a") "b").
  vm_compute. reflexivity.
Defined.

Lemma failed_keytool_leaves_decoded_keystore_witness :
  testbed.files (world_after (run testbed.sys
                                (keystore_model.UpdateKeystoreBase64 (testbed.model_of "a") "b")
                                testbed.no_keytool)) !! keystore_model.FILENAME
  = Some (testbed.container "a").
Proof.
  destruct failed_keytool_leaves_decoded_keystore as [_ H].
  apply (H testbed.no_keytool (testbed.model_of "a") "b" (testbed.container "a")).
  - vm_compute. reflexivity.
  - reflexivity.
  - intros Hin. apply elem_of_nil in Hin. exact Hin.
Defined.

Lemma update_stores_plan_with_rotated_keystore_witness :
  result (run testbed.sys
            (keystore_resource.Update
               (mkUpdateRequest
                  (Some (keystore_resource.mkKeystoreResourceModel
                           (StringValue "id") (StringValue "b") StringUnknown))
                  (Some (keystore_resource.mkKeystoreResourceModel
                           (StringValue "id") (StringValue "a") (StringValue "UEtDUzEyOmE="))))
               (mkResponse None []))
            testbed.fresh)
  = mkResponse
      (Some (keystore_resource.mkKeystoreResourceModel
               (StringValue "id") (StringValue "b") (StringValue "UEtDUzEyOmI="))) [].
Proof.
  destruct (update_stores_plan_with_rotated_keystore testbed.World testbed.sys testbed.fresh
              (keystore_resource.mkKeystoreResourceModel
                 (StringValue "id") (StringValue "b") StringUnknown)
              (keystore_resource.mkKeystoreResourceModel
                 (StringValue "id") (StringValue "a") (StringValue "UEtDUzEyOmE="))
              None) as (_ & _ & H); [discriminate|].
  exact H.
Defined.

Lemma dn_resource_keeps_planned_attributes_witness :
  resp_State (result (run testbed.sys
    (keystore_resource_dn.Update
       (fun _ _ => Return ("bmV3", None))
       (mkUpdateRequest
          (Some (keystore_resource_dn.with_File keystore_resource_dn.zero StringUnknown))
          (Some keystore_resource_dn.zero))
       (mkResponse None []))
    testbed.fresh))
  = Some (keystore_resource_dn.with_File keystore_resource_dn.zero (StringValue "bmV3")).
Proof.
  destruct (dn_resource_keeps_planned_attributes testbed.World testbed.sys testbed.fresh
              (fun _ _ => Return ("bmV3", None))
              (fun _ => Return ("bmV3", None))
              (keystore_resource_dn.with_File keystore_resource_dn.zero StringUnknown)
              keystore_resource_dn.zero None) as [_ H].
  destruct H as (_ & _ & H); [discriminate|].
  apply (f_equal resp_State) in H. exact H.
Defined.
